(** * terraform-provider-password: the Argon2 resource lifecycle

    A shallow embedding of the [password_argon2] resource of the provider
    (package [internal/provider]) and the properties of its lifecycle
    controller.

    The source tree holds two editions of the resource:
    - the _engine-generated-salt_ edition ([GeneratedSalt] below): no [salt]
      attribute, the cost parameters are handed to the hasher;
    - the _explicit-salt_ edition ([ExplicitSalt] below): a required [salt]
      attribute and a hasher built from the recommended profile alone.

    The Terraform plugin framework and the go-crypt library are not part of
    the repository.  The framework's value types, diagnostics and state
    containers are modelled in [Framework]; the hashing library is an
    interface ([Argon2.Lib]) over which every definition and theorem is
    parametric.  [RefLib] is one small executable instance of that
    interface, used to run the handlers on concrete inputs. *)

From Stdlib Require Import ZArith List String Ascii Bool Lia.
From ExtLib Require Import Structures.Monad Data.Monads.StateMonad.
Import ListNotations.
Import MonadNotation.
Local Open Scope monad_scope.
Local Open Scope string_scope.

(* ===================================================================== *)
(** ** The plugin framework: attribute values, diagnostics, state        *)
(* ===================================================================== *)

Module Framework.

(** [types.String]: a value with a null / unknown / known state. *)
Inductive TString : Type :=
| StringNull
| StringUnknown
| StringValue (s : string).

(** [types.Int32]; the payload of a known value is a 32-bit signed
    integer, held as a [Z]. *)
Inductive TInt32 : Type :=
| Int32Null
| Int32Unknown
| Int32Value (z : Z).

(** [s.ValueString()]: the known value, the empty string otherwise. *)
Definition ValueString (s : TString) : string :=
  match s with
  | StringValue v => v
  | _ => EmptyString
  end.

(** [i.ValueInt32()]: the known value, [0] otherwise. *)
Definition ValueInt32 (i : TInt32) : Z :=
  match i with
  | Int32Value v => v
  | _ => 0%Z
  end.

Definition IsNull (s : TString) : bool :=
  match s with StringNull => true | _ => false end.

Definition IsUnknown (s : TString) : bool :=
  match s with StringUnknown => true | _ => false end.

(** [s.Equal(o)]: same state and, when known, same value. *)
Definition StringEqual (s o : TString) : bool :=
  match s, o with
  | StringNull, StringNull => true
  | StringUnknown, StringUnknown => true
  | StringValue a, StringValue b => String.eqb a b
  | _, _ => false
  end.

(** Go conversions applied to [ValueInt32()] results. *)
Definition int_of_int32 (z : Z) : Z := z.
Definition uint32_of_int32 (z : Z) : Z := (z mod 2 ^ 32)%Z.

(** *** Diagnostics *)

Inductive Severity : Type := SeverityError | SeverityWarning.

Record Diagnostic : Type := mkDiagnostic {
  diag_Severity : Severity;
  diag_Summary : string;
  diag_Detail : string
}.

(** [diag.Diagnostics] is a Go slice; a call that receives it by value
    receives its own header, so it is a plain list here. *)
Definition Diagnostics : Type := list Diagnostic.

Definition Severity_eqb (a b : Severity) : bool :=
  match a, b with
  | SeverityError, SeverityError => true
  | SeverityWarning, SeverityWarning => true
  | _, _ => false
  end.

Definition Diagnostic_Equal (a b : Diagnostic) : bool :=
  Severity_eqb (diag_Severity a) (diag_Severity b)
  && String.eqb (diag_Summary a) (diag_Summary b)
  && String.eqb (diag_Detail a) (diag_Detail b).

Definition Contains (diags : Diagnostics) (d : Diagnostic) : bool :=
  existsb (Diagnostic_Equal d) diags.

(** [diags.Append(in...)]: duplicates are skipped. *)
Definition Append (diags inp : Diagnostics) : Diagnostics :=
  fold_left (fun acc d => if Contains acc d then acc else (acc ++ [d])%list) inp diags.

Definition NewErrorDiagnostic (summary detail : string) : Diagnostic :=
  mkDiagnostic SeverityError summary detail.

(** [diags.AddError(summary, detail)]. *)
Definition AddError (diags : Diagnostics) (summary detail : string) : Diagnostics :=
  Append diags [NewErrorDiagnostic summary detail].

(** [diags.HasError()]. *)
Definition HasError (diags : Diagnostics) : bool :=
  existsb (fun d => Severity_eqb (diag_Severity d) SeverityError) diags.

(** *** Plan and state containers

    [tfsdk.Plan] and [tfsdk.State] hold a raw object that is either null
    (no resource) or carries one value per attribute of the model. *)
Record Data (Model : Type) : Type := mkData { Raw : option Model }.
Arguments mkData {Model} _.
Arguments Raw {Model} _.

Definition null_object_diag : Diagnostic :=
  NewErrorDiagnostic "Value Conversion Error"
    "An unexpected error was encountered trying to build a value. Received null value.".

(** [d.Get(ctx, &target)]: the diagnostics and the new content of
    [target]; a null object cannot be read into a struct and leaves the
    target as it was. *)
Definition Get {Model : Type} (d : Data Model) (target : Model) : Diagnostics * Model :=
  match Raw d with
  | Some m => ([], m)
  | None => ([null_object_diag], target)
  end.

(** [s.Set(ctx, &val)]: the diagnostics and the container afterwards. *)
Definition Set_ {Model : Type} (d : Data Model) (val : Model) : Diagnostics * Data Model :=
  ([], mkData (Some val)).

(** The request and response of the lifecycle calls, restricted to the
    fields the resource reads and writes. *)
Record CreateRequest (Model : Type) : Type := mkCreateRequest {
  create_Plan : Data Model
}.
Record ReadRequest (Model : Type) : Type := mkReadRequest {
  read_State : Data Model
}.
Record UpdateRequest (Model : Type) : Type := mkUpdateRequest {
  update_Plan : Data Model;
  update_State : Data Model
}.
Record DeleteRequest (Model : Type) : Type := mkDeleteRequest {
  delete_State : Data Model
}.
Record Response (Model : Type) : Type := mkResponse {
  resp_Diagnostics : Diagnostics;
  resp_State : Data Model
}.
Arguments mkCreateRequest {Model} _.
Arguments create_Plan {Model} _.
Arguments mkReadRequest {Model} _.
Arguments read_State {Model} _.
Arguments mkUpdateRequest {Model} _ _.
Arguments update_Plan {Model} _.
Arguments update_State {Model} _.
Arguments mkDeleteRequest {Model} _.
Arguments delete_State {Model} _.
Arguments mkResponse {Model} _ _.
Arguments resp_Diagnostics {Model} _.
Arguments resp_State {Model} _.

(** [resp.Diagnostics.Append(ds...)]. *)
Definition append_diags {Model : Type} (resp : Response Model) (ds : Diagnostics)
  : Response Model :=
  mkResponse (Append (resp_Diagnostics resp) ds) (resp_State resp).

(** [resp.Diagnostics.Append(resp.State.Set(ctx, &data)...)]. *)
Definition set_state {Model : Type} (resp : Response Model) (data : Model)
  : Response Model :=
  let '(ds, st) := Set_ (resp_State resp) data in
  mkResponse (Append (resp_Diagnostics resp) ds) st.

(** [stringplanmodifier.UseStateForUnknown()]: an unknown planned value
    of a computed attribute takes the value held in state. *)
Definition UseStateForUnknown (stateValue planValue configValue : TString) : TString :=
  if IsNull stateValue then planValue
  else if negb (IsUnknown planValue) then planValue
  else if IsUnknown configValue then planValue
  else stateValue.

End Framework.

(* ===================================================================== *)
(** ** The hashing library (go-crypt), as an interface                   *)
(* ===================================================================== *)

Module Argon2.

Inductive Variant : Type := VariantD | VariantI | VariantID.

(** The hasher options the resource builds. *)
Inductive Opt : Type :=
| WithIterations (t : Z)
| WithKeyLength (k : Z)
| WithMemoryInKiB (m : Z)
| WithVariant (v : Variant)
| WithParallelism (p : Z)
| WithProfileRFC9106Recommended.

(** What the resource uses of the library.  A hasher is a mutable object
    in Go: [WithOptions] returns the error and the hasher afterwards.
    [Hash] draws a salt from the random source, of which [Entropy] is
    the state.  [CheckPassword] is [crypt.CheckPassword], the verifier
    the acceptance tests use. *)
Record Lib : Type := mkLib {
  Hasher : Type;
  Digest : Type;
  Error : Type;
  Entropy : Type;
  ProfileRFC9106Recommended_Hasher : Hasher;
  WithOptions : Hasher -> list Opt -> option Error * Hasher;
  New : list Opt -> Hasher + Error;
  Hash : Hasher -> string -> Entropy -> (Digest + Error) * Entropy;
  DigestString : Digest -> string;
  ErrorString : Error -> string;
  CheckPassword : string -> string -> bool
}.

End Argon2.

(* ===================================================================== *)
(** ** Effects of a lifecycle call                                       *)
(* ===================================================================== *)

Module Effects.

Section WithLib.
Variable L : Argon2.Lib.

(** What a handler can touch besides its response: the random source,
    the log, and a count of the [hasher.Hash] calls made so far. *)
Record World : Type := mkWorld {
  entropy : Argon2.Entropy L;
  hash_calls : nat;
  trace_log : list string
}.

Definition M : Type -> Type := state World.

(** [hasher.Hash(password)]. *)
Definition hasher_Hash (h : Argon2.Hasher L) (password : string)
  : M (Argon2.Digest L + Argon2.Error L) :=
  mkState (fun w =>
    let '(r, e) := Argon2.Hash L h password (entropy w) in
    (r, mkWorld e (S (hash_calls w)) (trace_log w))).

(** [tflog.Trace(ctx, msg)]. *)
Definition tflog_Trace (msg : string) : M unit :=
  mkState (fun w => (tt, mkWorld (entropy w) (hash_calls w) (trace_log w ++ [msg])%list)).

End WithLib.

Arguments entropy {L} _.
Arguments hash_calls {L} _.
Arguments trace_log {L} _.
Arguments mkWorld {L} _ _ _.

End Effects.

(* ===================================================================== *)
(** ** The resource, engine-generated-salt edition                       *)
(* ===================================================================== *)

Module GeneratedSalt.
Import Framework.

(** [Argon2ResourceModel] describes the resource data model. *)
Record Argon2ResourceModel : Type := mkModel {
  Password : TString;
  KeyLen : TInt32;
  Thread : TInt32;
  Memory : TInt32;
  Iterations : TInt32;
  Hash : TString;
  Id : TString
}.

(** [var data Argon2ResourceModel]: every attribute is the zero value of
    its type, which is the null value. *)
Definition zero_Model : Argon2ResourceModel :=
  mkModel StringNull Int32Null Int32Null Int32Null Int32Null StringNull StringNull.

(** [data.Hash = h] and [data.Id = i]. *)
Definition with_Hash (data : Argon2ResourceModel) (h : TString) : Argon2ResourceModel :=
  mkModel (Password data) (KeyLen data) (Thread data) (Memory data)
          (Iterations data) h (Id data).

Definition with_Id (data : Argon2ResourceModel) (i : TString) : Argon2ResourceModel :=
  mkModel (Password data) (KeyLen data) (Thread data) (Memory data)
          (Iterations data) (Hash data) i.

(** The argument list of [hasher.WithOptions] in [generatePassword]. *)
Definition hasher_options (data : Argon2ResourceModel) : list Argon2.Opt :=
  [ Argon2.WithIterations (int_of_int32 (ValueInt32 (Iterations data)));
    Argon2.WithKeyLength (int_of_int32 (ValueInt32 (KeyLen data)));
    Argon2.WithMemoryInKiB (uint32_of_int32 (ValueInt32 (Memory data)));
    Argon2.WithVariant Argon2.VariantID;
    Argon2.WithParallelism (int_of_int32 (ValueInt32 (Thread data))) ].

Section WithLib.
Variable L : Argon2.Lib.

Local Abbreviation M := (Effects.M L).

(** [generatePassword(diag, data)].  The Go function receives [diag] by
    value and returns the digest only; the first component of the
    result is the content of its own [diag] variable when it returns,
    which no caller can observe. *)
Definition generatePassword (diag : Diagnostics) (data : Argon2ResourceModel)
  : M (Diagnostics * option (Argon2.Digest L)) :=
  let hasher := Argon2.ProfileRFC9106Recommended_Hasher L in
  let '(err, hasher) := Argon2.WithOptions L hasher (hasher_options data) in
  let diag :=
    match err with
    | Some e =>
        AddError diag "Argon 2 initialization error"
          ("Unable to generate hash, got error " ++ Argon2.ErrorString L e)
    | None => diag
    end in
  r <- Effects.hasher_Hash L hasher (ValueString (Password data)) ;;
  match r with
  | inr e =>
      ret (AddError diag "Argon 2 error"
             ("Unable to hash Argon2, got error: " ++ Argon2.ErrorString L e),
           None)
  | inl digest => ret (diag, Some digest)
  end.

(** [(r *Argon2Resource) Create]. *)
Definition Create (req : CreateRequest Argon2ResourceModel)
    (resp : Response Argon2ResourceModel) : M (Response Argon2ResourceModel) :=
  let '(ds, data) := Get (create_Plan req) zero_Model in
  let resp := append_diags resp ds in
  if HasError (resp_Diagnostics resp) then ret resp
  else
    let data := with_Id data (StringValue "argon2-id") in
    out <- generatePassword (resp_Diagnostics resp) data ;;
    match snd out with
    | None => ret resp
    | Some digest =>
        let data := with_Hash data (StringValue (Argon2.DigestString L digest)) in
        Effects.tflog_Trace L "created a resource" ;;
        ret (set_state resp data)
    end.

(** [(r *Argon2Resource) Read]. *)
Definition Read (req : ReadRequest Argon2ResourceModel)
    (resp : Response Argon2ResourceModel) : M (Response Argon2ResourceModel) :=
  let '(ds, data) := Get (read_State req) zero_Model in
  let resp := append_diags resp ds in
  if HasError (resp_Diagnostics resp) then ret resp
  else ret (set_state resp data).

(** [(r *Argon2Resource) Update]. *)
Definition Update (req : UpdateRequest Argon2ResourceModel)
    (resp : Response Argon2ResourceModel) : M (Response Argon2ResourceModel) :=
  let '(ds, data) := Get (update_Plan req) zero_Model in
  let resp := append_diags resp ds in
  if HasError (resp_Diagnostics resp) then ret resp
  else
    let '(ds', oldData) := Get (update_State req) zero_Model in
    let resp := append_diags resp ds' in
    if StringEqual (Password oldData) (Password data) then
      ret (set_state resp (with_Hash data (Hash oldData)))
    else
      out <- generatePassword (resp_Diagnostics resp) data ;;
      match snd out with
      | None => ret resp
      | Some digest =>
          ret (set_state resp
                 (with_Hash data (StringValue (Argon2.DigestString L digest))))
      end.

(** [(r *Argon2Resource) Delete]. *)
Definition Delete (req : DeleteRequest Argon2ResourceModel)
    (resp : Response Argon2ResourceModel) : M (Response Argon2ResourceModel) :=
  let '(ds, _) := Get (delete_State req) zero_Model in
  ret (append_diags resp ds).

(** *** The calls the framework makes after Create

    The response of a call starts with no diagnostics and with the
    state the framework holds for the resource.  [id] is computed and
    carries the plan modifier [UseStateForUnknown]: in the plan of an
    update it is unknown before the modifier runs. *)
Inductive Event : Type :=
| EvRead
| EvUpdate (proposed : Argon2ResourceModel).

Definition fresh_response (st : Data Argon2ResourceModel)
  : Response Argon2ResourceModel := mkResponse [] st.

Definition planned (prior : Data Argon2ResourceModel)
    (proposed : Argon2ResourceModel) : Argon2ResourceModel :=
  match Raw prior with
  | Some p => with_Id proposed (UseStateForUnknown (Id p) StringUnknown StringNull)
  | None => with_Id proposed StringUnknown
  end.

Definition dispatch (st : Data Argon2ResourceModel) (ev : Event)
  : M (Data Argon2ResourceModel) :=
  match ev with
  | EvRead =>
      resp <- Read (mkReadRequest st) (fresh_response st) ;;
      ret (resp_State resp)
  | EvUpdate proposed =>
      resp <- Update (mkUpdateRequest (mkData (Some (planned st proposed))) st)
                     (fresh_response st) ;;
      ret (resp_State resp)
  end.

Fixpoint run (evs : list Event) (st : Data Argon2ResourceModel)
  : M (Data Argon2ResourceModel) :=
  match evs with
  | [] => ret st
  | ev :: rest => st' <- dispatch st ev ;; run rest st'
  end.

End WithLib.

End GeneratedSalt.


(* ===================================================================== *)
(** ** The resource, explicit-salt edition                               *)
(* ===================================================================== *)

Module ExplicitSalt.
Import Framework.

(** [Argon2ResourceModel] describes the resource data model. *)
Record Argon2ResourceModel : Type := mkModel {
  Salt : TString;
  Password : TString;
  KeyLen : TInt32;
  Time : TInt32;
  Thread : TInt32;
  Memory : TInt32;
  Iterations : TInt32;
  Hash : TString;
  Id : TString
}.

Definition zero_Model : Argon2ResourceModel :=
  mkModel StringNull StringNull Int32Null Int32Null Int32Null Int32Null Int32Null
          StringNull StringNull.

(** [data.Hash = h] and [data.Id = i]. *)
Definition with_Hash (data : Argon2ResourceModel) (h : TString) : Argon2ResourceModel :=
  mkModel (Salt data) (Password data) (KeyLen data) (Time data) (Thread data)
          (Memory data) (Iterations data) h (Id data).

Definition with_Id (data : Argon2ResourceModel) (i : TString) : Argon2ResourceModel :=
  mkModel (Salt data) (Password data) (KeyLen data) (Time data) (Thread data)
          (Memory data) (Iterations data) (Hash data) i.

Section WithLib.
Variable L : Argon2.Lib.

Local Abbreviation M := (Effects.M L).

(** [generatePassword(diag, data)].  As in the other edition, the first
    component of the result is the content of the function's own [diag]
    variable when it returns. *)
Definition generatePassword (diag : Diagnostics) (data : Argon2ResourceModel)
  : M (Diagnostics * option (Argon2.Digest L)) :=
  match Argon2.New L [Argon2.WithProfileRFC9106Recommended] with
  | inr e =>
      ret (AddError diag "Argon 2 error"
             ("Unable to create Argon2, got error: " ++ Argon2.ErrorString L e),
           None)
  | inl hasher =>
      r <- Effects.hasher_Hash L hasher (ValueString (Password data)) ;;
      match r with
      | inr e =>
          ret (AddError diag "Argon 2 error"
                 ("Unable to hash Argon2, got error: " ++ Argon2.ErrorString L e),
               None)
      | inl digest => ret (diag, Some digest)
      end
  end.

(** [(r *Argon2Resource) Create]. *)
Definition Create (req : CreateRequest Argon2ResourceModel)
    (resp : Response Argon2ResourceModel) : M (Response Argon2ResourceModel) :=
  let '(ds, data) := Get (create_Plan req) zero_Model in
  let resp := append_diags resp ds in
  if HasError (resp_Diagnostics resp) then ret resp
  else
    let data := with_Id data (StringValue "argon2-id") in
    out <- generatePassword (resp_Diagnostics resp) data ;;
    match snd out with
    | None => ret resp
    | Some digest =>
        let data := with_Hash data (StringValue (Argon2.DigestString L digest)) in
        Effects.tflog_Trace L "created a resource" ;;
        ret (set_state resp data)
    end.

(** [(r *Argon2Resource) Read]. *)
Definition Read (req : ReadRequest Argon2ResourceModel)
    (resp : Response Argon2ResourceModel) : M (Response Argon2ResourceModel) :=
  let '(ds, data) := Get (read_State req) zero_Model in
  let resp := append_diags resp ds in
  if HasError (resp_Diagnostics resp) then ret resp
  else ret (set_state resp data).

(** [(r *Argon2Resource) Update]. *)
Definition Update (req : UpdateRequest Argon2ResourceModel)
    (resp : Response Argon2ResourceModel) : M (Response Argon2ResourceModel) :=
  let '(ds, data) := Get (update_Plan req) zero_Model in
  let resp := append_diags resp ds in
  if HasError (resp_Diagnostics resp) then ret resp
  else
    let '(ds', oldData) := Get (update_State req) zero_Model in
    let resp := append_diags resp ds' in
    if StringEqual (Password oldData) (Password data) then
      ret (set_state resp (with_Hash data (Hash oldData)))
    else
      out <- generatePassword (resp_Diagnostics resp) data ;;
      match snd out with
      | None => ret resp
      | Some digest =>
          ret (set_state resp
                 (with_Hash data (StringValue (Argon2.DigestString L digest))))
      end.

(** [(r *Argon2Resource) Delete]. *)
Definition Delete (req : DeleteRequest Argon2ResourceModel)
    (resp : Response Argon2ResourceModel) : M (Response Argon2ResourceModel) :=
  let '(ds, _) := Get (delete_State req) zero_Model in
  ret (append_diags resp ds).

(** *** The calls the framework makes after Create *)
Inductive Event : Type :=
| EvRead
| EvUpdate (proposed : Argon2ResourceModel).

Definition fresh_response (st : Data Argon2ResourceModel)
  : Response Argon2ResourceModel := mkResponse [] st.

Definition planned (prior : Data Argon2ResourceModel)
    (proposed : Argon2ResourceModel) : Argon2ResourceModel :=
  match Raw prior with
  | Some p => with_Id proposed (UseStateForUnknown (Id p) StringUnknown StringNull)
  | None => with_Id proposed StringUnknown
  end.

Definition dispatch (st : Data Argon2ResourceModel) (ev : Event)
  : M (Data Argon2ResourceModel) :=
  match ev with
  | EvRead =>
      resp <- Read (mkReadRequest st) (fresh_response st) ;;
      ret (resp_State resp)
  | EvUpdate proposed =>
      resp <- Update (mkUpdateRequest (mkData (Some (planned st proposed))) st)
                     (fresh_response st) ;;
      ret (resp_State resp)
  end.

Fixpoint run (evs : list Event) (st : Data Argon2ResourceModel)
  : M (Data Argon2ResourceModel) :=
  match evs with
  | [] => ret st
  | ev :: rest => st' <- dispatch st ev ;; run rest st'
  end.

End WithLib.

End ExplicitSalt.


(* ===================================================================== *)
(** ** An executable instance of the library interface                   *)
(* ===================================================================== *)

(** [RefLib] follows the shape of go-crypt's Argon2 hasher: options are
    applied in order and the first one out of range stops with an error;
    [Hash] reads the salt from the random source and fails when none is
    left.  The key derivation is a placeholder (the key is the password
    and the encoded digest has a fixed-width header), enough to run the
    handlers; none of the general theorems depends on it. *)
Module RefLib.
Import Argon2.

Record hasher : Type := mkHasher {
  h_variant : Variant;
  h_t : Z;
  h_m : Z;
  h_p : Z;
  h_k : Z
}.

Record digest : Type := mkDigest {
  d_params : hasher;
  d_salt : ascii;
  d_key : string
}.

Definition IterationsMin : Z := 1.
Definition IterationsMax : Z := 2147483647.
Definition KeyLengthMin : Z := 4.
Definition KeyLengthMax : Z := 2147483647.
Definition MemoryMin : Z := 8.
Definition MemoryMax : Z := 4294967295.
Definition ParallelismMin : Z := 1.
Definition ParallelismMax : Z := 16777215.

Definition in_range (lo hi z : Z) : bool := ((lo <=? z) && (z <=? hi))%Z.

Definition profile_hasher : hasher := mkHasher VariantID 1 2097152 4 32.

Definition apply_opt (h : hasher) (o : Opt) : option string * hasher :=
  match o with
  | WithIterations t =>
      if in_range IterationsMin IterationsMax t
      then (None, mkHasher (h_variant h) t (h_m h) (h_p h) (h_k h))
      else (Some "argon2 validation error: parameter is invalid: t", h)
  | WithKeyLength k =>
      if in_range KeyLengthMin KeyLengthMax k
      then (None, mkHasher (h_variant h) (h_t h) (h_m h) (h_p h) k)
      else (Some "argon2 validation error: parameter is invalid: k", h)
  | WithMemoryInKiB m =>
      if in_range MemoryMin MemoryMax m
      then (None, mkHasher (h_variant h) (h_t h) m (h_p h) (h_k h))
      else (Some "argon2 validation error: parameter is invalid: m", h)
  | WithVariant v => (None, mkHasher v (h_t h) (h_m h) (h_p h) (h_k h))
  | WithParallelism p =>
      if in_range ParallelismMin ParallelismMax p
      then (None, mkHasher (h_variant h) (h_t h) (h_m h) p (h_k h))
      else (Some "argon2 validation error: parameter is invalid: p", h)
  | WithProfileRFC9106Recommended => (None, profile_hasher)
  end.

Fixpoint with_options (h : hasher) (opts : list Opt) : option string * hasher :=
  match opts with
  | [] => (None, h)
  | o :: rest =>
      match apply_opt h o with
      | (Some e, h') => (Some e, h')
      | (None, h') => with_options h' rest
      end
  end.

Definition new (opts : list Opt) : hasher + string :=
  match with_options (mkHasher VariantID 0 0 0 0) opts with
  | (Some e, _) => inr e
  | (None, h) => inl h
  end.

Definition hash (h : hasher) (password : string) (rnd : list ascii)
  : (digest + string) * list ascii :=
  match rnd with
  | [] => (inr "argon2 hashing error: could not read random bytes", [])
  | s :: rest => (inl (mkDigest h s password), rest)
  end.

Definition byte_of (z : Z) : ascii := ascii_of_N (Z.to_N (z mod 256)).

Definition variant_tag (v : Variant) : ascii :=
  match v with
  | VariantD => "d"%char
  | VariantI => "i"%char
  | VariantID => "x"%char
  end.

(** Six header characters (variant, t, m, p, k, salt), then the key. *)
Definition digest_string (d : digest) : string :=
  String (variant_tag (h_variant (d_params d)))
    (String (byte_of (h_t (d_params d)))
      (String (byte_of (h_m (d_params d)))
        (String (byte_of (h_p (d_params d)))
          (String (byte_of (h_k (d_params d)))
            (String (d_salt d) (d_key d)))))).

Fixpoint string_drop (n : nat) (s : string) : string :=
  match n, s with
  | O, _ => s
  | S n', String _ s' => string_drop n' s'
  | S _, EmptyString => EmptyString
  end.

Definition check_password (password encoded : string) : bool :=
  (6 <=? String.length encoded)%nat && String.eqb (string_drop 6 encoded) password.

Definition lib : Lib :=
  mkLib hasher digest string (list ascii)
        profile_hasher with_options new hash digest_string (fun e => e) check_password.

End RefLib.


(* ===================================================================== *)
(** ** Vocabulary of the properties                                      *)
(* ===================================================================== *)

Module Props.
Import Framework.

(** Round-trip verification, the contract of the hashing library: a
    digest verifies against the password it was computed from and against
    no other. *)
Definition round_trip (L : Argon2.Lib) : Prop :=
  forall h pw ent d ent',
    Argon2.Hash L h pw ent = (inl d, ent') ->
    Argon2.CheckPassword L pw (Argon2.DigestString L d) = true /\
    (forall pw', pw' <> pw ->
       Argon2.CheckPassword L pw' (Argon2.DigestString L d) = false).

(** A persisted hash, when there is one, verifies against the secret of
    its record. *)
Definition coherent (L : Argon2.Lib) (secret : TString) (hash : TString) : Prop :=
  forall h, hash = StringValue h ->
            Argon2.CheckPassword L (ValueString secret) h = true.

(** The digest the hashing invocation returns for a record ([None] when
    it fails), in a given world. *)
Definition gs_digest (L : Argon2.Lib) (data : GeneratedSalt.Argon2ResourceModel)
    (w : Effects.World L) : option (Argon2.Digest L) :=
  snd (fst (runState (GeneratedSalt.generatePassword L [] data) w)).

Definition es_digest (L : Argon2.Lib) (data : ExplicitSalt.Argon2ResourceModel)
    (w : Effects.World L) : option (Argon2.Digest L) :=
  snd (fst (runState (ExplicitSalt.generatePassword L [] data) w)).

(** The diagnostics held by the hashing helper's own variable when it
    returns. *)
Definition gs_helper_diags (L : Argon2.Lib) (diag : Diagnostics)
    (data : GeneratedSalt.Argon2ResourceModel) (w : Effects.World L) : Diagnostics :=
  fst (fst (runState (GeneratedSalt.generatePassword L diag data) w)).

Definition es_helper_diags (L : Argon2.Lib) (diag : Diagnostics)
    (data : ExplicitSalt.Argon2ResourceModel) (w : Effects.World L) : Diagnostics :=
  fst (fst (runState (ExplicitSalt.generatePassword L diag data) w)).

(** The request of an Update call with a desired record in the plan and
    a prior record in the state. *)
Definition gs_update (desired prior : GeneratedSalt.Argon2ResourceModel)
  : UpdateRequest GeneratedSalt.Argon2ResourceModel :=
  mkUpdateRequest (mkData (Some desired)) (mkData (Some prior)).

Definition es_update (desired prior : ExplicitSalt.Argon2ResourceModel)
  : UpdateRequest ExplicitSalt.Argon2ResourceModel :=
  mkUpdateRequest (mkData (Some desired)) (mkData (Some prior)).

End Props.

(* ===================================================================== *)
(** ** Concrete records and worlds                                       *)
(* ===================================================================== *)

Module Examples.
Import Framework.

Definition w0 : Effects.World RefLib.lib :=
  Effects.mkWorld (L := RefLib.lib) ["s"%char; "t"%char; "u"%char] 0 [].

(** A world whose random source is exhausted: [Hash] fails in it. *)
Definition w_dry : Effects.World RefLib.lib :=
  Effects.mkWorld (L := RefLib.lib) [] 0 [].

Definition old_hash : string :=
  RefLib.digest_string
    (RefLib.mkDigest (RefLib.mkHasher Argon2.VariantID 3 65536 4 32) "r"%char
                     "example-password").

(** Engine-generated-salt edition. *)
Definition gs_plan : GeneratedSalt.Argon2ResourceModel :=
  GeneratedSalt.mkModel (StringValue "example-password") (Int32Value 32)
    (Int32Value 4) (Int32Value 65536) (Int32Value 3) StringUnknown StringUnknown.

Definition gs_plan_zero_iterations : GeneratedSalt.Argon2ResourceModel :=
  GeneratedSalt.mkModel (StringValue "example-password") (Int32Value 32)
    (Int32Value 4) (Int32Value 65536) (Int32Value 0) StringUnknown StringUnknown.

Definition gs_plan_zero_key_len : GeneratedSalt.Argon2ResourceModel :=
  GeneratedSalt.mkModel (StringValue "example-password") (Int32Value 0)
    (Int32Value 4) (Int32Value 65536) (Int32Value 3) StringUnknown StringUnknown.

Definition gs_prior : GeneratedSalt.Argon2ResourceModel :=
  GeneratedSalt.mkModel (StringValue "example-password") (Int32Value 32)
    (Int32Value 4) (Int32Value 65536) (Int32Value 3) (StringValue old_hash)
    (StringValue "argon2-id").

(** Same secret, other computed attributes differ. *)
Definition gs_desired_same : GeneratedSalt.Argon2ResourceModel :=
  GeneratedSalt.mkModel (StringValue "example-password") (Int32Value 64)
    (Int32Value 8) (Int32Value 131072) (Int32Value 5) StringUnknown
    (StringValue "argon2-id").

Definition gs_desired_new : GeneratedSalt.Argon2ResourceModel :=
  GeneratedSalt.mkModel (StringValue "new-password") (Int32Value 32)
    (Int32Value 4) (Int32Value 65536) (Int32Value 3) StringUnknown
    (StringValue "argon2-id").

(** Explicit-salt edition. *)
Definition es_plan : ExplicitSalt.Argon2ResourceModel :=
  ExplicitSalt.mkModel (StringValue "example-salt") (StringValue "example-password")
    (Int32Value 32) (Int32Value 1) (Int32Value 4) (Int32Value 65536) (Int32Value 3)
    StringUnknown StringUnknown.

Definition es_prior : ExplicitSalt.Argon2ResourceModel :=
  ExplicitSalt.mkModel (StringValue "example-salt") (StringValue "example-password")
    (Int32Value 32) (Int32Value 1) (Int32Value 4) (Int32Value 65536) (Int32Value 3)
    (StringValue old_hash) (StringValue "argon2-id").

Definition es_desired_same : ExplicitSalt.Argon2ResourceModel :=
  ExplicitSalt.mkModel (StringValue "example-salt") (StringValue "example-password")
    (Int32Value 32) (Int32Value 1) (Int32Value 8) (Int32Value 65536) (Int32Value 3)
    StringUnknown (StringValue "argon2-id").

(** Same secret, new salt. *)
Definition es_desired_new_salt : ExplicitSalt.Argon2ResourceModel :=
  ExplicitSalt.mkModel (StringValue "new-salt") (StringValue "example-password")
    (Int32Value 32) (Int32Value 1) (Int32Value 4) (Int32Value 65536) (Int32Value 3)
    StringUnknown (StringValue "argon2-id").

Definition es_desired_new : ExplicitSalt.Argon2ResourceModel :=
  ExplicitSalt.mkModel (StringValue "new-salt") (StringValue "new-password")
    (Int32Value 32) (Int32Value 1) (Int32Value 4) (Int32Value 65536) (Int32Value 3)
    StringUnknown (StringValue "argon2-id").

(** The plan of [es_plan] with another salt. *)
Definition es_plan_new_salt : ExplicitSalt.Argon2ResourceModel :=
  ExplicitSalt.mkModel (StringValue "new-salt") (StringValue "example-password")
    (Int32Value 32) (Int32Value 1) (Int32Value 4) (Int32Value 65536) (Int32Value 3)
    StringUnknown StringUnknown.

(** The hash persisted by Create of the explicit-salt edition for a plan,
    from the world [w0]. *)
Definition es_created_hash (plan : ExplicitSalt.Argon2ResourceModel) : option TString :=
  option_map ExplicitSalt.Hash
    (Raw (resp_State (fst (runState
       (ExplicitSalt.Create RefLib.lib (mkCreateRequest (mkData (Some plan)))
          (ExplicitSalt.fresh_response (mkData None))) w0)))).

(** Calls made after Create: a refresh, an update that keeps the secret,
    an update that changes it, a refresh. *)
Definition gs_events : list GeneratedSalt.Event :=
  [ GeneratedSalt.EvRead; GeneratedSalt.EvUpdate gs_desired_same;
    GeneratedSalt.EvUpdate gs_desired_new; GeneratedSalt.EvRead ].

Definition es_events : list ExplicitSalt.Event :=
  [ ExplicitSalt.EvRead; ExplicitSalt.EvUpdate es_desired_new_salt;
    ExplicitSalt.EvUpdate es_desired_new; ExplicitSalt.EvRead ].

End Examples.


(* ===================================================================== *)
(** ** Provider and resource wiring                                      *)
(* ===================================================================== *)

(** The provider ([internal/provider/provider.go]) and the parts of the
    resource that connect it to the framework: [Metadata], [Configure]
    and [ImportState]. *)
Module Wiring.
Import Framework.

(** A [*http.Client], as a handle; [http.DefaultClient] is one of them. *)
Definition HttpClient : Type := nat.
Definition http_DefaultClient : HttpClient := 0%nat.

(** A Go value of type [any], as far as [Configure] tells values apart:
    nil, a [*http.Client], or a value of another type, of which [%T]
    prints the name. *)
Inductive Any : Type :=
| AnyNil
| AnyHttpClient (c : HttpClient)
| AnyOther (type_name : string).

(** [PasswordProvider] defines the provider implementation. *)
Record PasswordProvider : Type := mkProvider { version : string }.

(** [PasswordProviderModel] has no field. *)
Definition PasswordProviderModel : Type := unit.

Record ProviderMetadataResponse : Type := mkProviderMetadataResponse {
  pm_TypeName : string;
  pm_Version : string
}.

Record ProviderConfigureResponse : Type := mkProviderConfigureResponse {
  pc_Diagnostics : Diagnostics;
  pc_DataSourceData : Any;
  pc_ResourceData : Any
}.

(** [(p *PasswordProvider) Metadata]. *)
Definition provider_Metadata (p : PasswordProvider) (resp : ProviderMetadataResponse)
  : ProviderMetadataResponse :=
  mkProviderMetadataResponse "password" (version p).

(** [(p *PasswordProvider) Configure]. *)
Definition provider_Configure (p : PasswordProvider) (config : Data PasswordProviderModel)
    (resp : ProviderConfigureResponse) : ProviderConfigureResponse :=
  let '(ds, data) := Get config tt in
  let resp := mkProviderConfigureResponse (Append (pc_Diagnostics resp) ds)
                (pc_DataSourceData resp) (pc_ResourceData resp) in
  if HasError (pc_Diagnostics resp) then resp
  else
    let client := http_DefaultClient in
    mkProviderConfigureResponse (pc_Diagnostics resp)
      (AnyHttpClient client) (AnyHttpClient client).

(** The resource of the explicit-salt edition holds the client; the
    other edition's resource is an empty struct. *)
Record Argon2Resource : Type := mkArgon2Resource { client : option HttpClient }.

(** [NewArgon2Resource()]. *)
Definition NewArgon2Resource : Argon2Resource := mkArgon2Resource None.

(** [(p *PasswordProvider) Resources], [DataSources] and [Functions]: the
    constructors they return. *)
Definition Resources (p : PasswordProvider) : list Argon2Resource := [NewArgon2Resource].
Definition DataSources (p : PasswordProvider) : list unit := [].
Definition Functions (p : PasswordProvider) : list unit := [].

(** [New(version)]: a function that builds the provider. *)
Definition New (v : string) : unit -> PasswordProvider := fun _ => mkProvider v.

(** [(r *Argon2Resource) Metadata]: the type name of the resource. *)
Definition Metadata (providerTypeName : string) : string :=
  providerTypeName ++ "_argon2".

(** [(r *Argon2Resource) Configure], engine-generated-salt edition: it
    returns in both cases and changes nothing. *)
Definition gs_Configure (providerData : Any) (diags : Diagnostics) : Diagnostics :=
  match providerData with
  | AnyNil => diags
  | _ => diags
  end.

(** [(r *Argon2Resource) Configure], explicit-salt edition: the resource
    and the diagnostics of the response afterwards. *)
Definition es_Configure (r : Argon2Resource) (providerData : Any) (diags : Diagnostics)
  : Argon2Resource * Diagnostics :=
  match providerData with
  | AnyNil => (r, diags)
  | AnyHttpClient c => (mkArgon2Resource (Some c), diags)
  | AnyOther type_name =>
      (r, AddError diags "Unexpected Resource Configure Type"
            ("Expected *http.Client, got: " ++ type_name
             ++ ". Please report this issue to the provider developers."))
  end.

(** The framework configures the provider, then hands the
    [ResourceData] of the response to [Configure] of each resource. *)
Definition configure_all (p : PasswordProvider) (config : Data PasswordProviderModel)
  : ProviderConfigureResponse * list (Argon2Resource * Diagnostics) :=
  let presp := provider_Configure p config (mkProviderConfigureResponse [] AnyNil AnyNil) in
  (presp, map (fun r => es_Configure r (pc_ResourceData presp) []) (Resources p)).

(** [(r *Argon2Resource) ImportState] is
    [resource.ImportStatePassthroughID(ctx, path.Root("id"), req, resp)]:
    with a non-empty import identifier, the [id] attribute of the state
    of the response is set to it, and a state that was null has every
    other attribute null; with an empty identifier nothing is set. *)
Definition gs_ImportState (id : string) (resp : Response GeneratedSalt.Argon2ResourceModel)
  : Response GeneratedSalt.Argon2ResourceModel :=
  if String.eqb id EmptyString then resp
  else
    let m := match Raw (resp_State resp) with
             | Some m => m
             | None => GeneratedSalt.zero_Model
             end in
    mkResponse (resp_Diagnostics resp)
               (mkData (Some (GeneratedSalt.with_Id m (StringValue id)))).

Definition es_ImportState (id : string) (resp : Response ExplicitSalt.Argon2ResourceModel)
  : Response ExplicitSalt.Argon2ResourceModel :=
  if String.eqb id EmptyString then resp
  else
    let m := match Raw (resp_State resp) with
             | Some m => m
             | None => ExplicitSalt.zero_Model
             end in
    mkResponse (resp_Diagnostics resp)
               (mkData (Some (ExplicitSalt.with_Id m (StringValue id)))).

(** The number of Update calls in a sequence of framework calls. *)
Fixpoint gs_updates (evs : list GeneratedSalt.Event) : nat :=
  match evs with
  | [] => 0
  | GeneratedSalt.EvRead :: rest => gs_updates rest
  | GeneratedSalt.EvUpdate _ :: rest => S (gs_updates rest)
  end.

Fixpoint es_updates (evs : list ExplicitSalt.Event) : nat :=
  match evs with
  | [] => 0
  | ExplicitSalt.EvRead :: rest => es_updates rest
  | ExplicitSalt.EvUpdate _ :: rest => S (es_updates rest)
  end.

End Wiring.

(** More concrete records. *)
Module Scenarios.
Import Framework.

(** A plan whose memory attribute is negative. *)
Definition gs_plan_negative_memory : GeneratedSalt.Argon2ResourceModel :=
  GeneratedSalt.mkModel (StringValue "example-password") (Int32Value 32)
    (Int32Value 4) (Int32Value (-1)) (Int32Value 3) StringUnknown StringUnknown.

(** A response that already carries an error. *)
Definition errored_diags : Diagnostics :=
  [NewErrorDiagnostic "Earlier error" "Something failed before the call."].

(** The record of the explicit-salt edition after Create from [es_plan]
    in the world [w0]. *)
Definition es_created : ExplicitSalt.Argon2ResourceModel :=
  ExplicitSalt.with_Hash
    (ExplicitSalt.with_Id Examples.es_plan (StringValue "argon2-id"))
    (StringValue (RefLib.digest_string
       (RefLib.mkDigest RefLib.profile_hasher "s"%char "example-password"))).

Definition gs_created : GeneratedSalt.Argon2ResourceModel :=
  GeneratedSalt.with_Hash
    (GeneratedSalt.with_Id Examples.gs_plan (StringValue "argon2-id"))
    (StringValue (RefLib.digest_string
       (RefLib.mkDigest (RefLib.mkHasher Argon2.VariantID 3 65536 4 32) "s"%char
          "example-password"))).

End Scenarios.


(* ===================================================================== *)
(** ** Properties                                                        *)
(* ===================================================================== *)

Import Framework.

(** *** Attribute values and diagnostics *)

Lemma StringEqual_eq (a b : TString) : StringEqual a b = true <-> a = b.
Proof.
  destruct a, b; cbn; split; intros H; try congruence; try reflexivity.
  - apply String.eqb_eq in H. congruence.
  - injection H as ->. apply String.eqb_refl.
Qed.

Lemma StringEqual_refl (a : TString) : StringEqual a a = true.
Proof. apply StringEqual_eq. reflexivity. Qed.

Lemma StringEqual_neq (a b : TString) : a <> b -> StringEqual a b = false.
Proof.
  intros H. destruct (StringEqual a b) eqn:E; [|reflexivity].
  apply StringEqual_eq in E. contradiction.
Qed.

Lemma ValueString_neq (a b : TString) :
  ValueString a <> ValueString b -> StringEqual a b = false.
Proof.
  intros H. apply StringEqual_neq. intros ->. apply H. reflexivity.
Qed.

Lemma HasError_app (ds ds' : Diagnostics) :
  HasError (ds ++ ds')%list = HasError ds || HasError ds'.
Proof. unfold HasError. apply existsb_app. Qed.

(** An error diagnostic added to a collection makes it report an error,
    also when an equal one was already there. *)
Lemma HasError_AddError (ds : Diagnostics) (summary detail : string) :
  HasError (AddError ds summary detail) = true.
Proof.
  unfold AddError, Append. cbn [fold_left].
  destruct (Contains ds (NewErrorDiagnostic summary detail)) eqn:E.
  - unfold Contains in E. apply existsb_exists in E. destruct E as [d [Hin Heq]].
    unfold HasError. apply existsb_exists. exists d. split; [exact Hin|].
    unfold Diagnostic_Equal in Heq. cbn in Heq.
    destruct (diag_Severity d); [reflexivity | discriminate].
  - rewrite HasError_app. cbn. apply orb_true_r.
Qed.

Lemma HasError_null_object (ds : Diagnostics) :
  HasError (Append ds [null_object_diag]) = true.
Proof. apply (HasError_AddError ds). Qed.

(** Unfolds a handler up to its first effect, using that the response
    carried no error when the call started. *)
Ltac enter_handler He :=
  cbn; unfold HasError in He; cbn in He; rewrite ?He; cbn.

(** *** The hashing helper *)

(** The digest returned does not depend on the diagnostics handed in, nor
    on the [hash] and [id] attributes of the record. *)
Lemma gs_generatePassword_digest L dg data w :
  snd (fst (runState (GeneratedSalt.generatePassword L dg data) w))
  = Props.gs_digest L data w.
Proof.
  unfold Props.gs_digest, GeneratedSalt.generatePassword.
  destruct (Argon2.WithOptions L _ _) as [err hs]. cbn.
  destruct (Argon2.Hash L hs _ _) as [[d|e] en]; reflexivity.
Qed.

Lemma gs_digest_with_Id L data i w :
  Props.gs_digest L (GeneratedSalt.with_Id data i) w = Props.gs_digest L data w.
Proof. reflexivity. Qed.

Lemma es_generatePassword_digest L dg data w :
  snd (fst (runState (ExplicitSalt.generatePassword L dg data) w))
  = Props.es_digest L data w.
Proof.
  unfold Props.es_digest, ExplicitSalt.generatePassword.
  destruct (Argon2.New L _) as [hs|e]; [|reflexivity]. cbn.
  destruct (Argon2.Hash L hs _ _) as [[d|e] en]; reflexivity.
Qed.

Lemma es_digest_with_Id L data i w :
  Props.es_digest L (ExplicitSalt.with_Id data i) w = Props.es_digest L data w.
Proof. reflexivity. Qed.

(** *** Update, by cases *)

Lemma gs_Update_same L prior desired resp w :
  HasError (resp_Diagnostics resp) = false ->
  GeneratedSalt.Password desired = GeneratedSalt.Password prior ->
  runState (GeneratedSalt.Update L (Props.gs_update desired prior) resp) w
  = (set_state resp (GeneratedSalt.with_Hash desired (GeneratedSalt.Hash prior)), w).
Proof.
  intros He Hp. unfold GeneratedSalt.Update. enter_handler He.
  rewrite Hp, StringEqual_refl. reflexivity.
Qed.

Lemma es_Update_same L prior desired resp w :
  HasError (resp_Diagnostics resp) = false ->
  ExplicitSalt.Password desired = ExplicitSalt.Password prior ->
  runState (ExplicitSalt.Update L (Props.es_update desired prior) resp) w
  = (set_state resp (ExplicitSalt.with_Hash desired (ExplicitSalt.Hash prior)), w).
Proof.
  intros He Hp. unfold ExplicitSalt.Update. enter_handler He.
  rewrite Hp, StringEqual_refl. reflexivity.
Qed.

(** C1. Stability under a no-op update: when the desired secret equals
    the prior secret (and, in the explicit-salt edition, the desired salt
    equals the prior salt), Update writes the desired record with the
    prior hash copied verbatim, and leaves the world as it found it: the
    hasher is not called and the random source is not read.  The other
    attributes of the two records are arbitrary. *)
Theorem update_same_secret_keeps_hash (L : Argon2.Lib) :
  (forall prior desired resp w,
     HasError (resp_Diagnostics resp) = false ->
     GeneratedSalt.Password desired = GeneratedSalt.Password prior ->
     let r := runState (GeneratedSalt.Update L (Props.gs_update desired prior) resp) w in
     Raw (resp_State (fst r))
       = Some (GeneratedSalt.with_Hash desired (GeneratedSalt.Hash prior))
     /\ snd r = w
     /\ Effects.hash_calls (snd r) = Effects.hash_calls w)
  /\
  (forall prior desired resp w,
     HasError (resp_Diagnostics resp) = false ->
     ExplicitSalt.Password desired = ExplicitSalt.Password prior ->
     ExplicitSalt.Salt desired = ExplicitSalt.Salt prior ->
     let r := runState (ExplicitSalt.Update L (Props.es_update desired prior) resp) w in
     Raw (resp_State (fst r))
       = Some (ExplicitSalt.with_Hash desired (ExplicitSalt.Hash prior))
     /\ snd r = w
     /\ Effects.hash_calls (snd r) = Effects.hash_calls w).
Proof.
  split.
  - intros prior desired resp w He Hp r. subst r.
    rewrite (gs_Update_same L prior desired resp w He Hp). cbn. auto.
  - intros prior desired resp w He Hp _ r. subst r.
    rewrite (es_Update_same L prior desired resp w He Hp). cbn. auto.
Qed.

Lemma update_same_secret_keeps_hash_witness :
  (let r := runState (GeneratedSalt.Update RefLib.lib
                        (Props.gs_update Examples.gs_desired_same Examples.gs_prior)
                        (GeneratedSalt.fresh_response (mkData (Some Examples.gs_prior))))
                     Examples.w0 in
   Raw (resp_State (fst r))
     = Some (GeneratedSalt.with_Hash Examples.gs_desired_same
               (StringValue Examples.old_hash))
   /\ snd r = Examples.w0
   /\ Effects.hash_calls (snd r) = 0)
  /\
  (let r := runState (ExplicitSalt.Update RefLib.lib
                        (Props.es_update Examples.es_desired_same Examples.es_prior)
                        (ExplicitSalt.fresh_response (mkData (Some Examples.es_prior))))
                     Examples.w0 in
   Raw (resp_State (fst r))
     = Some (ExplicitSalt.with_Hash Examples.es_desired_same
               (StringValue Examples.old_hash))
   /\ snd r = Examples.w0
   /\ Effects.hash_calls (snd r) = 0).
Proof.
  split.
  - apply (proj1 (update_same_secret_keeps_hash RefLib.lib)
             Examples.gs_prior Examples.gs_desired_same); reflexivity.
  - apply (proj2 (update_same_secret_keeps_hash RefLib.lib)
             Examples.es_prior Examples.es_desired_same); reflexivity.
Defined.

(** In either edition, Update calls the hasher exactly when the secrets
    differ, and at most once. *)
Lemma gs_Update_hash_calls L prior desired resp w :
  HasError (resp_Diagnostics resp) = false ->
  Effects.hash_calls
    (snd (runState (GeneratedSalt.Update L (Props.gs_update desired prior) resp) w))
  = Effects.hash_calls w
    + (if StringEqual (GeneratedSalt.Password prior) (GeneratedSalt.Password desired)
       then 0 else 1).
Proof.
  intros He. unfold GeneratedSalt.Update. enter_handler He.
  destruct (StringEqual _ _); cbn; [lia|].
  unfold GeneratedSalt.generatePassword.
  destruct (Argon2.WithOptions L _ _) as [err hs]. cbn.
  destruct (Argon2.Hash L hs _ _) as [[d|e] en]; cbn; lia.
Qed.

(** The explicit-salt edition builds its hasher with [argon2.New]; when
    that fails no hash is attempted. *)
Lemma es_Update_hash_calls L prior desired resp w hs :
  HasError (resp_Diagnostics resp) = false ->
  Argon2.New L [Argon2.WithProfileRFC9106Recommended] = inl hs ->
  Effects.hash_calls
    (snd (runState (ExplicitSalt.Update L (Props.es_update desired prior) resp) w))
  = Effects.hash_calls w
    + (if StringEqual (ExplicitSalt.Password prior) (ExplicitSalt.Password desired)
       then 0 else 1).
Proof.
  intros He Hn. unfold ExplicitSalt.Update. enter_handler He.
  destruct (StringEqual _ _); cbn; [lia|].
  unfold ExplicitSalt.generatePassword. rewrite Hn. cbn.
  destruct (Argon2.Hash L hs _ _) as [[d|e] en]; cbn; lia.
Qed.

(** C2, as stated, fails: in the explicit-salt edition an update that
    changes the salt from [example-salt] to [new-salt] and keeps the
    secret does not call the hasher and persists the prior hash. *)
Lemma salt_change_keeps_hash_counterexample :
  let r := runState (ExplicitSalt.Update RefLib.lib
                       (Props.es_update Examples.es_desired_new_salt Examples.es_prior)
                       (ExplicitSalt.fresh_response (mkData (Some Examples.es_prior))))
                    Examples.w0 in
  ExplicitSalt.Salt Examples.es_desired_new_salt <> ExplicitSalt.Salt Examples.es_prior
  /\ ExplicitSalt.Password Examples.es_desired_new_salt
     = ExplicitSalt.Password Examples.es_prior
  /\ option_map ExplicitSalt.Hash (Raw (resp_State (fst r)))
     = Some (ExplicitSalt.Hash Examples.es_prior)
  /\ option_map ExplicitSalt.Salt (Raw (resp_State (fst r)))
     = Some (StringValue "new-salt")
  /\ Effects.hash_calls (snd r) = Effects.hash_calls Examples.w0.
Proof.
  cbv zeta. repeat split; try reflexivity. cbn. discriminate.
Qed.

(** C2, amended. In the explicit-salt edition the salt is not compared:
    an update whose salt differs from the prior salt while the secret is
    unchanged writes the desired record (new salt included) with the prior
    hash and leaves the world untouched; the hasher is called exactly when
    the secret differs. *)
Theorem update_explicit_salt_compares_secret_only
    (L : Argon2.Lib) prior desired resp w hs :
  HasError (resp_Diagnostics resp) = false ->
  Argon2.New L [Argon2.WithProfileRFC9106Recommended] = inl hs ->
  let r := runState (ExplicitSalt.Update L (Props.es_update desired prior) resp) w in
  Effects.hash_calls (snd r)
  = Effects.hash_calls w
    + (if StringEqual (ExplicitSalt.Password prior) (ExplicitSalt.Password desired)
       then 0 else 1)
  /\
  (ExplicitSalt.Salt desired <> ExplicitSalt.Salt prior ->
   ExplicitSalt.Password desired = ExplicitSalt.Password prior ->
   Raw (resp_State (fst r))
     = Some (ExplicitSalt.with_Hash desired (ExplicitSalt.Hash prior))
   /\ snd r = w).
Proof.
  intros He Hn r. subst r. split.
  - apply (es_Update_hash_calls L prior desired resp w hs He Hn).
  - intros _ Hp. rewrite (es_Update_same L prior desired resp w He Hp). cbn. auto.
Qed.

Lemma update_explicit_salt_compares_secret_only_witness :
  let r := runState (ExplicitSalt.Update RefLib.lib
                       (Props.es_update Examples.es_desired_new_salt Examples.es_prior)
                       (ExplicitSalt.fresh_response (mkData (Some Examples.es_prior))))
                    Examples.w0 in
  Effects.hash_calls (snd r) = 0
  /\
  (ExplicitSalt.Salt Examples.es_desired_new_salt <> ExplicitSalt.Salt Examples.es_prior ->
   ExplicitSalt.Password Examples.es_desired_new_salt
   = ExplicitSalt.Password Examples.es_prior ->
   Raw (resp_State (fst r))
     = Some (ExplicitSalt.with_Hash Examples.es_desired_new_salt
               (ExplicitSalt.Hash Examples.es_prior))
   /\ snd r = Examples.w0).
Proof.
  apply (update_explicit_salt_compares_secret_only RefLib.lib
           Examples.es_prior Examples.es_desired_new_salt
           (ExplicitSalt.fresh_response (mkData (Some Examples.es_prior)))
           Examples.w0 RefLib.profile_hasher); reflexivity.
Defined.

(** *** Read *)

(** C9. Read on a present record writes back exactly the record it read:
    the resulting state is the prior record, field for field, and the
    world is untouched (no hasher call, no random byte read, no log). *)
Theorem read_passes_state_through (L : Argon2.Lib) :
  (forall (prior : GeneratedSalt.Argon2ResourceModel) resp w,
     HasError (resp_Diagnostics resp) = false ->
     let r := runState (GeneratedSalt.Read L (mkReadRequest (mkData (Some prior))) resp) w in
     Raw (resp_State (fst r)) = Some prior
     /\ resp_Diagnostics (fst r) = resp_Diagnostics resp
     /\ snd r = w
     /\ Effects.hash_calls (snd r) = Effects.hash_calls w)
  /\
  (forall (prior : ExplicitSalt.Argon2ResourceModel) resp w,
     HasError (resp_Diagnostics resp) = false ->
     let r := runState (ExplicitSalt.Read L (mkReadRequest (mkData (Some prior))) resp) w in
     Raw (resp_State (fst r)) = Some prior
     /\ resp_Diagnostics (fst r) = resp_Diagnostics resp
     /\ snd r = w
     /\ Effects.hash_calls (snd r) = Effects.hash_calls w).
Proof.
  split; intros prior resp w He r; subst r.
  - unfold GeneratedSalt.Read. enter_handler He. auto.
  - unfold ExplicitSalt.Read. enter_handler He. auto.
Qed.

Lemma read_passes_state_through_witness :
  Raw (resp_State (fst (runState
         (GeneratedSalt.Read RefLib.lib (mkReadRequest (mkData (Some Examples.gs_prior)))
            (GeneratedSalt.fresh_response (mkData (Some Examples.gs_prior))))
         Examples.w0)))
  = Some Examples.gs_prior
  /\
  Raw (resp_State (fst (runState
         (ExplicitSalt.Read RefLib.lib (mkReadRequest (mkData (Some Examples.es_prior)))
            (ExplicitSalt.fresh_response (mkData (Some Examples.es_prior))))
         Examples.w0)))
  = Some Examples.es_prior.
Proof.
  split.
  - apply (proj1 (read_passes_state_through RefLib.lib) Examples.gs_prior
             (GeneratedSalt.fresh_response (mkData (Some Examples.gs_prior)))
             Examples.w0). reflexivity.
  - apply (proj2 (read_passes_state_through RefLib.lib) Examples.es_prior
             (ExplicitSalt.fresh_response (mkData (Some Examples.es_prior)))
             Examples.w0). reflexivity.
Defined.

(** Read never touches the world, whatever the request and response. *)
Lemma gs_Read_world L req resp w :
  snd (runState (GeneratedSalt.Read L req resp) w) = w.
Proof.
  unfold GeneratedSalt.Read, Get. destruct (Raw (read_State req)); cbn;
    destruct (existsb _ _); reflexivity.
Qed.

Lemma es_Read_world L req resp w :
  snd (runState (ExplicitSalt.Read L req resp) w) = w.
Proof.
  unfold ExplicitSalt.Read, Get. destruct (Raw (read_State req)); cbn;
    destruct (existsb _ _); reflexivity.
Qed.

(** *** Create *)

(** Without a plan to read, Create stops at its first test. *)
Lemma gs_Create_absent L req resp w :
  Raw (create_Plan req) = None ->
  runState (GeneratedSalt.Create L req resp) w
  = (append_diags resp [null_object_diag], w).
Proof.
  intros Hp. unfold GeneratedSalt.Create, Get. rewrite Hp.
  cbn -[HasError Append]. rewrite HasError_null_object. reflexivity.
Qed.

(** What Create leaves in the response: either the state it was given,
    or the planned record with the constant identifier and the encoded
    digest of the hashing invocation. *)
Lemma gs_Create_state L req resp w :
  let r := runState (GeneratedSalt.Create L req resp) w in
  resp_State (fst r) = resp_State resp
  \/ exists data d,
       Raw (create_Plan req) = Some data
       /\ Props.gs_digest L data w = Some d
       /\ Raw (resp_State (fst r))
          = Some (GeneratedSalt.with_Hash
                    (GeneratedSalt.with_Id data (StringValue "argon2-id"))
                    (StringValue (Argon2.DigestString L d))).
Proof.
  destruct (Raw (create_Plan req)) as [data|] eqn:Hp.
  2:{ left.
      rewrite (gs_Create_absent L req resp w Hp). reflexivity. }
  unfold GeneratedSalt.Create, Get. rewrite Hp.
  cbn. destruct (existsb _ _); [left; reflexivity|]. cbn.
  pose proof (gs_generatePassword_digest L (resp_Diagnostics resp)
                (GeneratedSalt.with_Id data (StringValue "argon2-id")) w) as Hd.
  rewrite gs_digest_with_Id in Hd.
  destruct (runState (GeneratedSalt.generatePassword L _ _) w) as [[dg od] w'].
  cbn in Hd. cbn. destruct od as [d|]; cbn.
  - right. exists data, d. auto.
  - left. reflexivity.
Qed.

Lemma es_Create_absent L req resp w :
  Raw (create_Plan req) = None ->
  runState (ExplicitSalt.Create L req resp) w
  = (append_diags resp [null_object_diag], w).
Proof.
  intros Hp. unfold ExplicitSalt.Create, Get. rewrite Hp.
  cbn -[HasError Append]. rewrite HasError_null_object. reflexivity.
Qed.

Lemma es_Create_state L req resp w :
  let r := runState (ExplicitSalt.Create L req resp) w in
  resp_State (fst r) = resp_State resp
  \/ exists data d,
       Raw (create_Plan req) = Some data
       /\ Props.es_digest L data w = Some d
       /\ Raw (resp_State (fst r))
          = Some (ExplicitSalt.with_Hash
                    (ExplicitSalt.with_Id data (StringValue "argon2-id"))
                    (StringValue (Argon2.DigestString L d))).
Proof.
  destruct (Raw (create_Plan req)) as [data|] eqn:Hp.
  2:{ left. rewrite (es_Create_absent L req resp w Hp). reflexivity. }
  unfold ExplicitSalt.Create, Get. rewrite Hp.
  cbn. destruct (existsb _ _); [left; reflexivity|]. cbn.
  pose proof (es_generatePassword_digest L (resp_Diagnostics resp)
                (ExplicitSalt.with_Id data (StringValue "argon2-id")) w) as Hd.
  rewrite es_digest_with_Id in Hd.
  destruct (runState (ExplicitSalt.generatePassword L _ _) w) as [[dg od] w'].
  cbn in Hd. cbn. destruct od as [d|]; cbn.
  - right. exists data, d. auto.
  - left. reflexivity.
Qed.

(** On a readable plan, when the hashing invocation returns a digest,
    Create writes the planned record with the constant identifier and
    the encoded digest. *)
Lemma gs_Create_success L data resp w d :
  HasError (resp_Diagnostics resp) = false ->
  Props.gs_digest L data w = Some d ->
  fst (runState (GeneratedSalt.Create L (mkCreateRequest (mkData (Some data))) resp) w)
  = set_state resp
      (GeneratedSalt.with_Hash (GeneratedSalt.with_Id data (StringValue "argon2-id"))
         (StringValue (Argon2.DigestString L d))).
Proof.
  intros He Hd. unfold GeneratedSalt.Create. enter_handler He.
  pose proof (gs_generatePassword_digest L (resp_Diagnostics resp)
                (GeneratedSalt.with_Id data (StringValue "argon2-id")) w) as Hg.
  rewrite gs_digest_with_Id, Hd in Hg.
  destruct (runState (GeneratedSalt.generatePassword L _ _) w) as [[dg od] w'].
  cbn in Hg. subst od. reflexivity.
Qed.

Lemma es_Create_success L data resp w d :
  HasError (resp_Diagnostics resp) = false ->
  Props.es_digest L data w = Some d ->
  fst (runState (ExplicitSalt.Create L (mkCreateRequest (mkData (Some data))) resp) w)
  = set_state resp
      (ExplicitSalt.with_Hash (ExplicitSalt.with_Id data (StringValue "argon2-id"))
         (StringValue (Argon2.DigestString L d))).
Proof.
  intros He Hd. unfold ExplicitSalt.Create. enter_handler He.
  pose proof (es_generatePassword_digest L (resp_Diagnostics resp)
                (ExplicitSalt.with_Id data (StringValue "argon2-id")) w) as Hg.
  rewrite es_digest_with_Id, Hd in Hg.
  destruct (runState (ExplicitSalt.generatePassword L _ _) w) as [[dg od] w'].
  cbn in Hg. subst od. reflexivity.
Qed.

(** C10. Whatever the secret, salt and cost attributes of the plan,
    Create assigns the identifier ["argon2-id"]: in either edition, when
    the hashing invocation returns a digest Create writes a record, and
    that record carries ["argon2-id"]; no record written by Create
    carries another identifier; hence any two records created by the
    controller, in either edition, have the same identifier. *)
Theorem create_assigns_constant_id (L : Argon2.Lib) :
  (forall data resp w d,
     HasError (resp_Diagnostics resp) = false ->
     Props.gs_digest L data w = Some d ->
     exists m,
       Raw (resp_State (fst (runState
              (GeneratedSalt.Create L (mkCreateRequest (mkData (Some data))) resp) w)))
       = Some m
       /\ GeneratedSalt.Id m = StringValue "argon2-id")
  /\
  (forall data resp w d,
     HasError (resp_Diagnostics resp) = false ->
     Props.es_digest L data w = Some d ->
     exists m,
       Raw (resp_State (fst (runState
              (ExplicitSalt.Create L (mkCreateRequest (mkData (Some data))) resp) w)))
       = Some m
       /\ ExplicitSalt.Id m = StringValue "argon2-id")
  /\
  (forall req resp w m,
     Raw (resp_State resp) = None ->
     Raw (resp_State (fst (runState (GeneratedSalt.Create L req resp) w))) = Some m ->
     GeneratedSalt.Id m = StringValue "argon2-id")
  /\
  (forall req resp w m,
     Raw (resp_State resp) = None ->
     Raw (resp_State (fst (runState (ExplicitSalt.Create L req resp) w))) = Some m ->
     ExplicitSalt.Id m = StringValue "argon2-id")
  /\
  (forall req1 req2 resp1 resp2 w1 w2 m1 m2,
     Raw (resp_State resp1) = None ->
     Raw (resp_State resp2) = None ->
     Raw (resp_State (fst (runState (GeneratedSalt.Create L req1 resp1) w1))) = Some m1 ->
     Raw (resp_State (fst (runState (ExplicitSalt.Create L req2 resp2) w2))) = Some m2 ->
     GeneratedSalt.Id m1 = ExplicitSalt.Id m2).
Proof.
  assert (HA : forall req resp w m,
     Raw (resp_State resp) = None ->
     Raw (resp_State (fst (runState (GeneratedSalt.Create L req resp) w))) = Some m ->
     GeneratedSalt.Id m = StringValue "argon2-id").
  { intros req resp w m Habs Hm.
    destruct (gs_Create_state L req resp w) as [Hu | [data [d [_ [_ Hw]]]]].
    - rewrite Hu in Hm. congruence.
    - rewrite Hw in Hm. injection Hm as <-. reflexivity. }
  assert (HB : forall req resp w m,
     Raw (resp_State resp) = None ->
     Raw (resp_State (fst (runState (ExplicitSalt.Create L req resp) w))) = Some m ->
     ExplicitSalt.Id m = StringValue "argon2-id").
  { intros req resp w m Habs Hm.
    destruct (es_Create_state L req resp w) as [Hu | [data [d [_ [_ Hw]]]]].
    - rewrite Hu in Hm. congruence.
    - rewrite Hw in Hm. injection Hm as <-. reflexivity. }
  split; [|split; [|split; [exact HA | split; [exact HB |]]]].
  - intros data resp w d He Hd. rewrite (gs_Create_success L data resp w d He Hd).
    eexists. split; reflexivity.
  - intros data resp w d He Hd. rewrite (es_Create_success L data resp w d He Hd).
    eexists. split; reflexivity.
  - intros req1 req2 resp1 resp2 w1 w2 m1 m2 H1 H2 Hm1 Hm2.
    rewrite (HA _ _ _ _ H1 Hm1), (HB _ _ _ _ H2 Hm2). reflexivity.
Qed.

Lemma create_assigns_constant_id_witness :
  (exists m,
     Raw (resp_State (fst (runState
            (GeneratedSalt.Create RefLib.lib
               (mkCreateRequest (mkData (Some Examples.gs_plan)))
               (GeneratedSalt.fresh_response (mkData None))) Examples.w0))) = Some m
     /\ GeneratedSalt.Id m = StringValue "argon2-id")
  /\
  (exists m,
     Raw (resp_State (fst (runState
            (ExplicitSalt.Create RefLib.lib
               (mkCreateRequest (mkData (Some Examples.es_plan)))
               (ExplicitSalt.fresh_response (mkData None))) Examples.w0))) = Some m
     /\ ExplicitSalt.Id m = StringValue "argon2-id")
  /\
  (exists m,
     Raw (resp_State (fst (runState
            (ExplicitSalt.Create RefLib.lib
               (mkCreateRequest (mkData (Some Examples.es_plan_new_salt)))
               (ExplicitSalt.fresh_response (mkData None))) Examples.w0))) = Some m
     /\ ExplicitSalt.Id m = StringValue "argon2-id").
Proof.
  pose proof (create_assigns_constant_id RefLib.lib) as [HA [HB _]].
  split; [|split].
  - exact (HA Examples.gs_plan (GeneratedSalt.fresh_response (mkData None)) Examples.w0
             (RefLib.mkDigest (RefLib.mkHasher Argon2.VariantID 3 65536 4 32)
                "s"%char "example-password") eq_refl eq_refl).
  - exact (HB Examples.es_plan (ExplicitSalt.fresh_response (mkData None)) Examples.w0
             (RefLib.mkDigest RefLib.profile_hasher "s"%char "example-password")
             eq_refl eq_refl).
  - exact (HB Examples.es_plan_new_salt (ExplicitSalt.fresh_response (mkData None))
             Examples.w0
             (RefLib.mkDigest RefLib.profile_hasher "s"%char "example-password")
             eq_refl eq_refl).
Defined.

(** *** Failure of the hashing invocation *)

Lemma gs_Update_changed L prior desired resp w :
  HasError (resp_Diagnostics resp) = false ->
  StringEqual (GeneratedSalt.Password prior) (GeneratedSalt.Password desired) = false ->
  fst (runState (GeneratedSalt.Update L (Props.gs_update desired prior) resp) w)
  = match Props.gs_digest L desired w with
    | Some d => set_state resp (GeneratedSalt.with_Hash desired
                                  (StringValue (Argon2.DigestString L d)))
    | None => resp
    end.
Proof.
  intros He Hne. unfold GeneratedSalt.Update. enter_handler He. rewrite Hne. cbn.
  pose proof (gs_generatePassword_digest L (resp_Diagnostics resp) desired w) as Hd.
  destruct (runState (GeneratedSalt.generatePassword L _ _) w) as [[dg od] w'].
  cbn in Hd. cbn. rewrite <- Hd. destruct od; cbn; [reflexivity|].
  destruct resp as [ds [st]]; reflexivity.
Qed.

Lemma es_Update_changed L prior desired resp w :
  HasError (resp_Diagnostics resp) = false ->
  StringEqual (ExplicitSalt.Password prior) (ExplicitSalt.Password desired) = false ->
  fst (runState (ExplicitSalt.Update L (Props.es_update desired prior) resp) w)
  = match Props.es_digest L desired w with
    | Some d => set_state resp (ExplicitSalt.with_Hash desired
                                  (StringValue (Argon2.DigestString L d)))
    | None => resp
    end.
Proof.
  intros He Hne. unfold ExplicitSalt.Update. enter_handler He. rewrite Hne. cbn.
  pose proof (es_generatePassword_digest L (resp_Diagnostics resp) desired w) as Hd.
  destruct (runState (ExplicitSalt.generatePassword L _ _) w) as [[dg od] w'].
  cbn in Hd. cbn. rewrite <- Hd. destruct od; cbn; [reflexivity|].
  destruct resp as [ds [st]]; reflexivity.
Qed.

(** With a response that already carries an error, Update stops before
    it reads the prior state. *)
Lemma gs_Update_errored L prior desired resp w :
  HasError (resp_Diagnostics resp) = true ->
  runState (GeneratedSalt.Update L (Props.gs_update desired prior) resp) w
  = (append_diags resp [], w).
Proof.
  intros He. unfold GeneratedSalt.Update. cbn. unfold HasError in He. rewrite He.
  reflexivity.
Qed.

Lemma es_Update_errored L prior desired resp w :
  HasError (resp_Diagnostics resp) = true ->
  runState (ExplicitSalt.Update L (Props.es_update desired prior) resp) w
  = (append_diags resp [], w).
Proof.
  intros He. unfold ExplicitSalt.Update. cbn. unfold HasError in He. rewrite He.
  reflexivity.
Qed.

(** C4. When the hashing invocation returns no digest, Create and Update
    return without writing the state: the state of the response is the
    one the call started with, so the prior record, if any, stays the
    persisted one.  Update invokes the hasher only when the secrets
    differ. *)
Theorem hash_failure_leaves_state (L : Argon2.Lib) :
  (forall data resp w,
     Props.gs_digest L data w = None ->
     resp_State (fst (runState
       (GeneratedSalt.Create L (mkCreateRequest (mkData (Some data))) resp) w))
     = resp_State resp)
  /\
  (forall prior desired resp w,
     GeneratedSalt.Password desired <> GeneratedSalt.Password prior ->
     Props.gs_digest L desired w = None ->
     resp_State (fst (runState
       (GeneratedSalt.Update L (Props.gs_update desired prior) resp) w))
     = resp_State resp)
  /\
  (forall data resp w,
     Props.es_digest L data w = None ->
     resp_State (fst (runState
       (ExplicitSalt.Create L (mkCreateRequest (mkData (Some data))) resp) w))
     = resp_State resp)
  /\
  (forall prior desired resp w,
     ExplicitSalt.Password desired <> ExplicitSalt.Password prior ->
     Props.es_digest L desired w = None ->
     resp_State (fst (runState
       (ExplicitSalt.Update L (Props.es_update desired prior) resp) w))
     = resp_State resp).
Proof.
  repeat split.
  - intros data resp w Hf.
    destruct (gs_Create_state L (mkCreateRequest (mkData (Some data))) resp w)
      as [Hu | [data' [d [Hp [Hd _]]]]]; [exact Hu|].
    cbn in Hp. injection Hp as <-. congruence.
  - intros prior desired resp w Hne Hf.
    destruct (HasError (resp_Diagnostics resp)) eqn:He.
    + rewrite (gs_Update_errored L prior desired resp w He). reflexivity.
    + rewrite (gs_Update_changed L prior desired resp w He), Hf; [reflexivity|].
      apply StringEqual_neq. congruence.
  - intros data resp w Hf.
    destruct (es_Create_state L (mkCreateRequest (mkData (Some data))) resp w)
      as [Hu | [data' [d [Hp [Hd _]]]]]; [exact Hu|].
    cbn in Hp. injection Hp as <-. congruence.
  - intros prior desired resp w Hne Hf.
    destruct (HasError (resp_Diagnostics resp)) eqn:He.
    + rewrite (es_Update_errored L prior desired resp w He). reflexivity.
    + rewrite (es_Update_changed L prior desired resp w He), Hf; [reflexivity|].
      apply StringEqual_neq. congruence.
Qed.

Lemma hash_failure_leaves_state_witness :
  (Props.gs_digest RefLib.lib Examples.gs_plan Examples.w_dry = None
   /\ resp_State (fst (runState
        (GeneratedSalt.Create RefLib.lib (mkCreateRequest (mkData (Some Examples.gs_plan)))
           (GeneratedSalt.fresh_response (mkData None))) Examples.w_dry))
      = mkData None)
  /\
  (Props.gs_digest RefLib.lib Examples.gs_desired_new Examples.w_dry = None
   /\ resp_State (fst (runState
        (GeneratedSalt.Update RefLib.lib
           (Props.gs_update Examples.gs_desired_new Examples.gs_prior)
           (GeneratedSalt.fresh_response (mkData (Some Examples.gs_prior))))
        Examples.w_dry))
      = mkData (Some Examples.gs_prior))
  /\
  (Props.es_digest RefLib.lib Examples.es_plan Examples.w_dry = None
   /\ resp_State (fst (runState
        (ExplicitSalt.Create RefLib.lib (mkCreateRequest (mkData (Some Examples.es_plan)))
           (ExplicitSalt.fresh_response (mkData None))) Examples.w_dry))
      = mkData None)
  /\
  (Props.es_digest RefLib.lib Examples.es_desired_new Examples.w_dry = None
   /\ resp_State (fst (runState
        (ExplicitSalt.Update RefLib.lib
           (Props.es_update Examples.es_desired_new Examples.es_prior)
           (ExplicitSalt.fresh_response (mkData (Some Examples.es_prior))))
        Examples.w_dry))
      = mkData (Some Examples.es_prior)).
Proof.
  pose proof (hash_failure_leaves_state RefLib.lib) as [HcA [HuA [HcB HuB]]].
  split; [|split; [|split]]; (split; [reflexivity|]).
  - apply (HcA Examples.gs_plan (GeneratedSalt.fresh_response (mkData None))
             Examples.w_dry). reflexivity.
  - apply (HuA Examples.gs_prior Examples.gs_desired_new
             (GeneratedSalt.fresh_response (mkData (Some Examples.gs_prior)))
             Examples.w_dry); [discriminate | reflexivity].
  - apply (HcB Examples.es_plan (ExplicitSalt.fresh_response (mkData None))
             Examples.w_dry). reflexivity.
  - apply (HuB Examples.es_prior Examples.es_desired_new
             (ExplicitSalt.fresh_response (mkData (Some Examples.es_prior)))
             Examples.w_dry); [discriminate | reflexivity].
Defined.

(** *** Lifecycle after Create *)

Lemma UseStateForUnknown_computed (i : TString) :
  IsNull i = false -> UseStateForUnknown i StringUnknown StringNull = i.
Proof. destruct i; cbn; [discriminate | reflexivity | reflexivity]. Qed.

(** One framework call on a present record leaves a present record with
    the same identifier. *)
Lemma gs_dispatch_keeps_id L ev m w :
  IsNull (GeneratedSalt.Id m) = false ->
  exists m',
    Raw (fst (runState (GeneratedSalt.dispatch L (mkData (Some m)) ev) w)) = Some m'
    /\ GeneratedSalt.Id m' = GeneratedSalt.Id m.
Proof.
  intros Hn. destruct ev as [|proposed].
  - exists m. cbn. auto.
  - unfold GeneratedSalt.dispatch, GeneratedSalt.planned. cbn [Raw].
    rewrite (UseStateForUnknown_computed _ Hn).
    set (desired := GeneratedSalt.with_Id proposed (GeneratedSalt.Id m)).
    change (mkUpdateRequest (mkData (Some desired)) (mkData (Some m)))
      with (Props.gs_update desired m).
    cbn [runState bind Monad_state ret].
    destruct (runState (GeneratedSalt.Update L _ _) w) as [resp w'] eqn:Hu.
    cbn [fst]. apply (f_equal fst) in Hu. cbn [fst] in Hu. subst resp.
    destruct (StringEqual (GeneratedSalt.Password m) (GeneratedSalt.Password desired))
      eqn:Heq.
    + apply StringEqual_eq in Heq. symmetry in Heq.
      rewrite (gs_Update_same L m desired
                 (GeneratedSalt.fresh_response (mkData (Some m))) w eq_refl Heq). cbn.
      eexists. split; reflexivity.
    + rewrite (gs_Update_changed L m desired
                 (GeneratedSalt.fresh_response (mkData (Some m))) w eq_refl Heq).
      destruct (Props.gs_digest L desired w); cbn.
      * eexists. split; reflexivity.
      * exists m. auto.
Qed.

Lemma es_dispatch_keeps_id L ev m w :
  IsNull (ExplicitSalt.Id m) = false ->
  exists m',
    Raw (fst (runState (ExplicitSalt.dispatch L (mkData (Some m)) ev) w)) = Some m'
    /\ ExplicitSalt.Id m' = ExplicitSalt.Id m.
Proof.
  intros Hn. destruct ev as [|proposed].
  - exists m. cbn. auto.
  - unfold ExplicitSalt.dispatch, ExplicitSalt.planned. cbn [Raw].
    rewrite (UseStateForUnknown_computed _ Hn).
    set (desired := ExplicitSalt.with_Id proposed (ExplicitSalt.Id m)).
    change (mkUpdateRequest (mkData (Some desired)) (mkData (Some m)))
      with (Props.es_update desired m).
    cbn [runState bind Monad_state ret].
    destruct (runState (ExplicitSalt.Update L _ _) w) as [resp w'] eqn:Hu.
    cbn [fst]. apply (f_equal fst) in Hu. cbn [fst] in Hu. subst resp.
    destruct (StringEqual (ExplicitSalt.Password m) (ExplicitSalt.Password desired))
      eqn:Heq.
    + apply StringEqual_eq in Heq. symmetry in Heq.
      rewrite (es_Update_same L m desired
                 (ExplicitSalt.fresh_response (mkData (Some m))) w eq_refl Heq). cbn.
      eexists. split; reflexivity.
    + rewrite (es_Update_changed L m desired
                 (ExplicitSalt.fresh_response (mkData (Some m))) w eq_refl Heq).
      destruct (Props.es_digest L desired w); cbn.
      * eexists. split; reflexivity.
      * exists m. auto.
Qed.

Lemma gs_run_keeps_id L evs : forall m w,
  IsNull (GeneratedSalt.Id m) = false ->
  exists m',
    Raw (fst (runState (GeneratedSalt.run L evs (mkData (Some m))) w)) = Some m'
    /\ GeneratedSalt.Id m' = GeneratedSalt.Id m.
Proof.
  induction evs as [|ev rest IH]; intros m w Hn.
  - exists m. cbn. auto.
  - cbn [GeneratedSalt.run runState bind Monad_state].
    destruct (gs_dispatch_keeps_id L ev m w Hn) as [m1 [H1 Hid1]].
    destruct (runState (GeneratedSalt.dispatch L _ ev) w) as [[raw1] w1].
    cbn in H1. subst raw1.
    assert (Hn1 : IsNull (GeneratedSalt.Id m1) = false) by (rewrite Hid1; exact Hn).
    destruct (IH m1 w1 Hn1) as [m' [H' Hid']].
    exists m'. split; [exact H' | congruence].
Qed.

Lemma es_run_keeps_id L evs : forall m w,
  IsNull (ExplicitSalt.Id m) = false ->
  exists m',
    Raw (fst (runState (ExplicitSalt.run L evs (mkData (Some m))) w)) = Some m'
    /\ ExplicitSalt.Id m' = ExplicitSalt.Id m.
Proof.
  induction evs as [|ev rest IH]; intros m w Hn.
  - exists m. cbn. auto.
  - cbn [ExplicitSalt.run runState bind Monad_state].
    destruct (es_dispatch_keeps_id L ev m w Hn) as [m1 [H1 Hid1]].
    destruct (runState (ExplicitSalt.dispatch L _ ev) w) as [[raw1] w1].
    cbn in H1. subst raw1.
    assert (Hn1 : IsNull (ExplicitSalt.Id m1) = false) by (rewrite Hid1; exact Hn).
    destruct (IH m1 w1 Hn1) as [m' [H' Hid']].
    exists m'. split; [exact H' | congruence].
Qed.

(** C8. The identifier is immutable after creation: from the record
    written by Create, every sequence of Read and Update calls made by
    the framework ends in a present record that carries the identifier
    assigned at Create. *)
Theorem identifier_invariant (L : Argon2.Lib) :
  (forall plan w evs m0,
     let c := runState (GeneratedSalt.Create L (mkCreateRequest plan)
                          (GeneratedSalt.fresh_response (mkData None))) w in
     Raw (resp_State (fst c)) = Some m0 ->
     exists m,
       Raw (fst (runState (GeneratedSalt.run L evs (resp_State (fst c))) (snd c)))
       = Some m
       /\ GeneratedSalt.Id m = GeneratedSalt.Id m0)
  /\
  (forall plan w evs m0,
     let c := runState (ExplicitSalt.Create L (mkCreateRequest plan)
                          (ExplicitSalt.fresh_response (mkData None))) w in
     Raw (resp_State (fst c)) = Some m0 ->
     exists m,
       Raw (fst (runState (ExplicitSalt.run L evs (resp_State (fst c))) (snd c)))
       = Some m
       /\ ExplicitSalt.Id m = ExplicitSalt.Id m0).
Proof.
  split; intros plan w evs m0 c Hm0.
  - assert (Hid : IsNull (GeneratedSalt.Id m0) = false).
    { destruct (gs_Create_state L (mkCreateRequest plan)
                  (GeneratedSalt.fresh_response (mkData None)) w)
        as [Hu | [data [d [_ [_ Hw]]]]]; fold c in Hu || fold c in Hw.
      - rewrite Hu in Hm0. discriminate.
      - rewrite Hw in Hm0. injection Hm0 as <-. reflexivity. }
    destruct (resp_State (fst c)) as [raw]. cbn in Hm0. subst raw.
    apply (gs_run_keeps_id L evs m0 (snd c) Hid).
  - assert (Hid : IsNull (ExplicitSalt.Id m0) = false).
    { destruct (es_Create_state L (mkCreateRequest plan)
                  (ExplicitSalt.fresh_response (mkData None)) w)
        as [Hu | [data [d [_ [_ Hw]]]]]; fold c in Hu || fold c in Hw.
      - rewrite Hu in Hm0. discriminate.
      - rewrite Hw in Hm0. injection Hm0 as <-. reflexivity. }
    destruct (resp_State (fst c)) as [raw]. cbn in Hm0. subst raw.
    apply (es_run_keeps_id L evs m0 (snd c) Hid).
Qed.

Lemma identifier_invariant_witness :
  (let c := runState (GeneratedSalt.Create RefLib.lib
                        (mkCreateRequest (mkData (Some Examples.gs_plan)))
                        (GeneratedSalt.fresh_response (mkData None))) Examples.w0 in
   exists m,
     Raw (fst (runState (GeneratedSalt.run RefLib.lib Examples.gs_events
                           (resp_State (fst c))) (snd c))) = Some m
     /\ GeneratedSalt.Id m = StringValue "argon2-id")
  /\
  (let c := runState (ExplicitSalt.Create RefLib.lib
                        (mkCreateRequest (mkData (Some Examples.es_plan)))
                        (ExplicitSalt.fresh_response (mkData None))) Examples.w0 in
   exists m,
     Raw (fst (runState (ExplicitSalt.run RefLib.lib Examples.es_events
                           (resp_State (fst c))) (snd c))) = Some m
     /\ ExplicitSalt.Id m = StringValue "argon2-id").
Proof.
  split.
  - exact (proj1 (identifier_invariant RefLib.lib)
             (mkData (Some Examples.gs_plan)) Examples.w0 Examples.gs_events
             (GeneratedSalt.with_Hash
                (GeneratedSalt.with_Id Examples.gs_plan (StringValue "argon2-id"))
                (StringValue (RefLib.digest_string
                   (RefLib.mkDigest (RefLib.mkHasher Argon2.VariantID 3 65536 4 32)
                      "s"%char "example-password"))))
             eq_refl).
  - exact (proj2 (identifier_invariant RefLib.lib)
             (mkData (Some Examples.es_plan)) Examples.w0 Examples.es_events
             (ExplicitSalt.with_Hash
                (ExplicitSalt.with_Id Examples.es_plan (StringValue "argon2-id"))
                (StringValue (RefLib.digest_string
                   (RefLib.mkDigest RefLib.profile_hasher
                      "s"%char "example-password"))))
             eq_refl).
Defined.

(** *** Rehash on change *)

(** The reference instance meets the round-trip contract. *)
Lemma RefLib_round_trip : Props.round_trip RefLib.lib.
Proof.
  intros h pw ent d ent' Hh. cbn in Hh. unfold RefLib.hash in Hh.
  destruct ent as [|s rest]; [discriminate|].
  injection Hh as <- _. cbn. split.
  - apply String.eqb_refl.
  - intros pw' Hne. apply String.eqb_neq. congruence.
Qed.

(** A digest returned by the hashing invocation is the result of
    [hasher.Hash] on the secret of the record. *)
Lemma gs_digest_Some L data w d :
  Props.gs_digest L data w = Some d ->
  exists h ent',
    Argon2.Hash L h (ValueString (GeneratedSalt.Password data)) (Effects.entropy w)
    = (inl d, ent').
Proof.
  unfold Props.gs_digest, GeneratedSalt.generatePassword.
  destruct (Argon2.WithOptions L _ _) as [err hs]. cbn.
  destruct (Argon2.Hash L hs _ _) as [[d'|e] en] eqn:Hh; cbn; intros H;
    [|discriminate].
  injection H as ->. exists hs, en. exact Hh.
Qed.

Lemma es_digest_Some L data w d :
  Props.es_digest L data w = Some d ->
  exists h ent',
    Argon2.Hash L h (ValueString (ExplicitSalt.Password data)) (Effects.entropy w)
    = (inl d, ent').
Proof.
  unfold Props.es_digest, ExplicitSalt.generatePassword.
  destruct (Argon2.New L _) as [hs|e]; [|discriminate]. cbn.
  destruct (Argon2.Hash L hs _ _) as [[d'|e] en] eqn:Hh; cbn; intros H;
    [|discriminate].
  injection H as ->. exists hs, en. exact Hh.
Qed.

(** Under the round-trip contract, a fresh digest of one secret differs
    from any hash that is coherent with a different secret. *)
Lemma fresh_digest_properties L h pw ent d ent' (old_secret old_hash : TString) :
  Props.round_trip L ->
  Argon2.Hash L h pw ent = (inl d, ent') ->
  pw <> ValueString old_secret ->
  Props.coherent L old_secret old_hash ->
  StringValue (Argon2.DigestString L d) <> old_hash
  /\ Argon2.CheckPassword L pw (Argon2.DigestString L d) = true
  /\ Argon2.CheckPassword L (ValueString old_secret) (Argon2.DigestString L d) = false.
Proof.
  intros Hrt Hh Hne Hco. destruct (Hrt h pw ent d ent' Hh) as [Hok Hno].
  assert (Hf : Argon2.CheckPassword L (ValueString old_secret)
                 (Argon2.DigestString L d) = false)
    by (apply Hno; congruence).
  repeat split; try assumption.
  intros Heq. symmetry in Heq. apply Hco in Heq. congruence.
Qed.

(** C3, as stated, fails when the hashing invocation returns no digest.
    With an exhausted random source, an update from [example-password] to
    [new-password] leaves the prior record in the state, in both
    editions: the resulting hash is the prior hash, and it does not
    verify against the desired secret. *)
Lemma changed_secret_failed_hash_counterexample :
  (let r := runState (GeneratedSalt.Update RefLib.lib
                        (Props.gs_update Examples.gs_desired_new Examples.gs_prior)
                        (GeneratedSalt.fresh_response (mkData (Some Examples.gs_prior))))
                     Examples.w_dry in
   ValueString (GeneratedSalt.Password Examples.gs_desired_new)
     <> ValueString (GeneratedSalt.Password Examples.gs_prior)
   /\ Raw (resp_State (fst r)) = Some Examples.gs_prior
   /\ option_map GeneratedSalt.Hash (Raw (resp_State (fst r)))
      = Some (GeneratedSalt.Hash Examples.gs_prior)
   /\ RefLib.check_password "new-password" Examples.old_hash = false)
  /\
  (let r := runState (ExplicitSalt.Update RefLib.lib
                        (Props.es_update Examples.es_desired_new Examples.es_prior)
                        (ExplicitSalt.fresh_response (mkData (Some Examples.es_prior))))
                     Examples.w_dry in
   ValueString (ExplicitSalt.Password Examples.es_desired_new)
     <> ValueString (ExplicitSalt.Password Examples.es_prior)
   /\ Raw (resp_State (fst r)) = Some Examples.es_prior
   /\ option_map ExplicitSalt.Hash (Raw (resp_State (fst r)))
      = Some (ExplicitSalt.Hash Examples.es_prior)
   /\ RefLib.check_password "new-password" Examples.old_hash = false).
Proof.
  split; cbv zeta.
  - split; [cbn; discriminate|]. split; [reflexivity|]. split; reflexivity.
  - split; [cbn; discriminate|]. split; [reflexivity|]. split; reflexivity.
Qed.

(** C3, amended. Rehash on change: when the desired secret differs from
    the prior secret and the hashing invocation returns a digest, Update
    writes the desired record with a new hash; the new hash differs from
    the prior hash, verifies against the desired secret and does not
    verify against the prior secret.  The hashing library is assumed to
    meet its round-trip contract, and the prior hash to verify against
    the prior secret (which holds of every record the controller wrote,
    see [gs_run_coherent] and [es_run_coherent]). *)
Theorem update_changed_secret_rehashes (L : Argon2.Lib) :
  Props.round_trip L ->
  (forall prior desired resp w d,
     HasError (resp_Diagnostics resp) = false ->
     ValueString (GeneratedSalt.Password desired)
       <> ValueString (GeneratedSalt.Password prior) ->
     Props.coherent L (GeneratedSalt.Password prior) (GeneratedSalt.Hash prior) ->
     Props.gs_digest L desired w = Some d ->
     let r := runState (GeneratedSalt.Update L (Props.gs_update desired prior) resp) w in
     exists h',
       Raw (resp_State (fst r))
         = Some (GeneratedSalt.with_Hash desired (StringValue h'))
       /\ StringValue h' <> GeneratedSalt.Hash prior
       /\ Argon2.CheckPassword L (ValueString (GeneratedSalt.Password desired)) h' = true
       /\ Argon2.CheckPassword L (ValueString (GeneratedSalt.Password prior)) h' = false)
  /\
  (forall prior desired resp w d,
     HasError (resp_Diagnostics resp) = false ->
     ValueString (ExplicitSalt.Password desired)
       <> ValueString (ExplicitSalt.Password prior) ->
     Props.coherent L (ExplicitSalt.Password prior) (ExplicitSalt.Hash prior) ->
     Props.es_digest L desired w = Some d ->
     let r := runState (ExplicitSalt.Update L (Props.es_update desired prior) resp) w in
     exists h',
       Raw (resp_State (fst r))
         = Some (ExplicitSalt.with_Hash desired (StringValue h'))
       /\ StringValue h' <> ExplicitSalt.Hash prior
       /\ Argon2.CheckPassword L (ValueString (ExplicitSalt.Password desired)) h' = true
       /\ Argon2.CheckPassword L (ValueString (ExplicitSalt.Password prior)) h' = false).
Proof.
  intros Hrt. split; intros prior desired resp w d He Hne Hco Hd r; subst r.
  - destruct (gs_digest_Some L desired w d Hd) as [h [ent' Hh]].
    assert (Hneq : StringEqual (GeneratedSalt.Password prior)
                     (GeneratedSalt.Password desired) = false)
      by (apply ValueString_neq; congruence).
    rewrite (gs_Update_changed L prior desired resp w He Hneq), Hd.
    exists (Argon2.DigestString L d). split; [reflexivity|].
    exact (fresh_digest_properties L h _ _ d ent' _ _ Hrt Hh Hne Hco).
  - destruct (es_digest_Some L desired w d Hd) as [h [ent' Hh]].
    assert (Hneq : StringEqual (ExplicitSalt.Password prior)
                     (ExplicitSalt.Password desired) = false)
      by (apply ValueString_neq; congruence).
    rewrite (es_Update_changed L prior desired resp w He Hneq), Hd.
    exists (Argon2.DigestString L d). split; [reflexivity|].
    exact (fresh_digest_properties L h _ _ d ent' _ _ Hrt Hh Hne Hco).
Qed.

Lemma example_prior_coherent :
  Props.coherent RefLib.lib (StringValue "example-password")
    (StringValue Examples.old_hash).
Proof. intros h Hh. injection Hh as <-. reflexivity. Qed.

Lemma update_changed_secret_rehashes_witness :
  (let r := runState (GeneratedSalt.Update RefLib.lib
                        (Props.gs_update Examples.gs_desired_new Examples.gs_prior)
                        (GeneratedSalt.fresh_response (mkData (Some Examples.gs_prior))))
                     Examples.w0 in
   exists h',
     Raw (resp_State (fst r))
       = Some (GeneratedSalt.with_Hash Examples.gs_desired_new (StringValue h'))
     /\ StringValue h' <> StringValue Examples.old_hash
     /\ RefLib.check_password "new-password" h' = true
     /\ RefLib.check_password "example-password" h' = false)
  /\
  (let r := runState (ExplicitSalt.Update RefLib.lib
                        (Props.es_update Examples.es_desired_new Examples.es_prior)
                        (ExplicitSalt.fresh_response (mkData (Some Examples.es_prior))))
                     Examples.w0 in
   exists h',
     Raw (resp_State (fst r))
       = Some (ExplicitSalt.with_Hash Examples.es_desired_new (StringValue h'))
     /\ StringValue h' <> StringValue Examples.old_hash
     /\ RefLib.check_password "new-password" h' = true
     /\ RefLib.check_password "example-password" h' = false).
Proof.
  pose proof (update_changed_secret_rehashes RefLib.lib RefLib_round_trip) as [HA HB].
  split.
  - apply (HA Examples.gs_prior Examples.gs_desired_new
             (GeneratedSalt.fresh_response (mkData (Some Examples.gs_prior)))
             Examples.w0
             (RefLib.mkDigest (RefLib.mkHasher Argon2.VariantID 3 65536 4 32)
                "s"%char "new-password")).
    + reflexivity.
    + cbn. discriminate.
    + exact example_prior_coherent.
    + reflexivity.
  - apply (HB Examples.es_prior Examples.es_desired_new
             (ExplicitSalt.fresh_response (mkData (Some Examples.es_prior)))
             Examples.w0
             (RefLib.mkDigest RefLib.profile_hasher "s"%char "new-password")).
    + reflexivity.
    + cbn. discriminate.
    + exact example_prior_coherent.
    + reflexivity.
Defined.

(** Coherence of the persisted hash is an invariant of the lifecycle. *)
Lemma gs_dispatch_coherent L ev m w :
  Props.round_trip L ->
  Props.coherent L (GeneratedSalt.Password m) (GeneratedSalt.Hash m) ->
  exists m',
    Raw (fst (runState (GeneratedSalt.dispatch L (mkData (Some m)) ev) w)) = Some m'
    /\ Props.coherent L (GeneratedSalt.Password m') (GeneratedSalt.Hash m').
Proof.
  intros Hrt Hco. destruct ev as [|proposed].
  - exists m. cbn. auto.
  - unfold GeneratedSalt.dispatch.
    set (desired := GeneratedSalt.planned (mkData (Some m)) proposed).
    change (mkUpdateRequest (mkData (Some desired)) (mkData (Some m)))
      with (Props.gs_update desired m).
    cbn [runState bind Monad_state ret].
    destruct (runState (GeneratedSalt.Update L _ _) w) as [resp w'] eqn:Hu.
    cbn [fst]. apply (f_equal fst) in Hu. cbn [fst] in Hu. subst resp.
    destruct (StringEqual (GeneratedSalt.Password m) (GeneratedSalt.Password desired))
      eqn:Heq.
    + apply StringEqual_eq in Heq. symmetry in Heq.
      rewrite (gs_Update_same L m desired
                 (GeneratedSalt.fresh_response (mkData (Some m))) w eq_refl Heq). cbn.
      eexists. split; [reflexivity|]. subst desired. cbn in Heq |- *.
      rewrite Heq. exact Hco.
    + rewrite (gs_Update_changed L m desired
                 (GeneratedSalt.fresh_response (mkData (Some m))) w eq_refl Heq).
      destruct (Props.gs_digest L desired w) as [d|] eqn:Hd; cbn.
      * eexists. split; [reflexivity|]. cbn.
        destruct (gs_digest_Some L desired w d Hd) as [h [ent' Hh]].
        intros s Hs. injection Hs as <-. apply (Hrt h _ _ d ent' Hh).
      * exists m. auto.
Qed.

Lemma es_dispatch_coherent L ev m w :
  Props.round_trip L ->
  Props.coherent L (ExplicitSalt.Password m) (ExplicitSalt.Hash m) ->
  exists m',
    Raw (fst (runState (ExplicitSalt.dispatch L (mkData (Some m)) ev) w)) = Some m'
    /\ Props.coherent L (ExplicitSalt.Password m') (ExplicitSalt.Hash m').
Proof.
  intros Hrt Hco. destruct ev as [|proposed].
  - exists m. cbn. auto.
  - unfold ExplicitSalt.dispatch.
    set (desired := ExplicitSalt.planned (mkData (Some m)) proposed).
    change (mkUpdateRequest (mkData (Some desired)) (mkData (Some m)))
      with (Props.es_update desired m).
    cbn [runState bind Monad_state ret].
    destruct (runState (ExplicitSalt.Update L _ _) w) as [resp w'] eqn:Hu.
    cbn [fst]. apply (f_equal fst) in Hu. cbn [fst] in Hu. subst resp.
    destruct (StringEqual (ExplicitSalt.Password m) (ExplicitSalt.Password desired))
      eqn:Heq.
    + apply StringEqual_eq in Heq. symmetry in Heq.
      rewrite (es_Update_same L m desired
                 (ExplicitSalt.fresh_response (mkData (Some m))) w eq_refl Heq). cbn.
      eexists. split; [reflexivity|]. subst desired. cbn in Heq |- *.
      rewrite Heq. exact Hco.
    + rewrite (es_Update_changed L m desired
                 (ExplicitSalt.fresh_response (mkData (Some m))) w eq_refl Heq).
      destruct (Props.es_digest L desired w) as [d|] eqn:Hd; cbn.
      * eexists. split; [reflexivity|]. cbn.
        destruct (es_digest_Some L desired w d Hd) as [h [ent' Hh]].
        intros s Hs. injection Hs as <-. apply (Hrt h _ _ d ent' Hh).
      * exists m. auto.
Qed.

Lemma gs_run_coherent L plan w evs m0 :
  Props.round_trip L ->
  let c := runState (GeneratedSalt.Create L (mkCreateRequest plan)
                       (GeneratedSalt.fresh_response (mkData None))) w in
  Raw (resp_State (fst c)) = Some m0 ->
  exists m,
    Raw (fst (runState (GeneratedSalt.run L evs (resp_State (fst c))) (snd c))) = Some m
    /\ Props.coherent L (GeneratedSalt.Password m) (GeneratedSalt.Hash m).
Proof.
  intros Hrt c Hm0.
  assert (Hco : Props.coherent L (GeneratedSalt.Password m0) (GeneratedSalt.Hash m0)).
  { destruct (gs_Create_state L (mkCreateRequest plan)
                (GeneratedSalt.fresh_response (mkData None)) w)
      as [Hu | [data [d [_ [Hd Hw]]]]]; fold c in Hu || fold c in Hw.
    - rewrite Hu in Hm0. discriminate.
    - rewrite Hw in Hm0. injection Hm0 as <-. cbn.
      destruct (gs_digest_Some L data w d Hd) as [h [ent' Hh]].
      intros s Hs. injection Hs as <-. apply (Hrt h _ _ d ent' Hh). }
  destruct (resp_State (fst c)) as [raw]. cbn in Hm0. subst raw.
  generalize (snd c). clear c. revert m0 Hco.
  induction evs as [|ev rest IH]; intros m0 Hco w0.
  - exists m0. cbn. auto.
  - cbn [GeneratedSalt.run runState bind Monad_state].
    destruct (gs_dispatch_coherent L ev m0 w0 Hrt Hco) as [m1 [H1 Hco1]].
    destruct (runState (GeneratedSalt.dispatch L _ ev) w0) as [[raw1] w1].
    cbn in H1. subst raw1. apply (IH m1 Hco1 w1).
Qed.

Lemma es_run_coherent L plan w evs m0 :
  Props.round_trip L ->
  let c := runState (ExplicitSalt.Create L (mkCreateRequest plan)
                       (ExplicitSalt.fresh_response (mkData None))) w in
  Raw (resp_State (fst c)) = Some m0 ->
  exists m,
    Raw (fst (runState (ExplicitSalt.run L evs (resp_State (fst c))) (snd c))) = Some m
    /\ Props.coherent L (ExplicitSalt.Password m) (ExplicitSalt.Hash m).
Proof.
  intros Hrt c Hm0.
  assert (Hco : Props.coherent L (ExplicitSalt.Password m0) (ExplicitSalt.Hash m0)).
  { destruct (es_Create_state L (mkCreateRequest plan)
                (ExplicitSalt.fresh_response (mkData None)) w)
      as [Hu | [data [d [_ [Hd Hw]]]]]; fold c in Hu || fold c in Hw.
    - rewrite Hu in Hm0. discriminate.
    - rewrite Hw in Hm0. injection Hm0 as <-. cbn.
      destruct (es_digest_Some L data w d Hd) as [h [ent' Hh]].
      intros s Hs. injection Hs as <-. apply (Hrt h _ _ d ent' Hh). }
  destruct (resp_State (fst c)) as [raw]. cbn in Hm0. subst raw.
  generalize (snd c). clear c. revert m0 Hco.
  induction evs as [|ev rest IH]; intros m0 Hco w0.
  - exists m0. cbn. auto.
  - cbn [ExplicitSalt.run runState bind Monad_state].
    destruct (es_dispatch_coherent L ev m0 w0 Hrt Hco) as [m1 [H1 Hco1]].
    destruct (runState (ExplicitSalt.dispatch L _ ev) w0) as [[raw1] w1].
    cbn in H1. subst raw1. apply (IH m1 Hco1 w1).
Qed.

(** *** Diagnostics of the hashing helper *)

(** The hasher the engine-generated-salt edition hashes with: the
    recommended profile after [WithOptions], whether or not [WithOptions]
    reported an error. *)
Lemma gs_generatePassword_run L dg data w :
  let cfg := Argon2.WithOptions L (Argon2.ProfileRFC9106Recommended_Hasher L)
               (GeneratedSalt.hasher_options data) in
  let out := Argon2.Hash L (snd cfg) (ValueString (GeneratedSalt.Password data))
               (Effects.entropy w) in
  let r := runState (GeneratedSalt.generatePassword L dg data) w in
  snd (fst r) = match fst out with inl d => Some d | inr _ => None end
  /\ Effects.hash_calls (snd r) = S (Effects.hash_calls w)
  /\ Effects.entropy (snd r) = snd out.
Proof.
  unfold GeneratedSalt.generatePassword.
  destruct (Argon2.WithOptions L _ _) as [err hs]. cbn.
  destruct (Argon2.Hash L hs _ _) as [[d|e] en]; cbn; auto.
Qed.

(** The helper records an error in its own variable when [WithOptions]
    fails and when no digest comes back. *)
Lemma gs_helper_diags_init_error L dg data w e hs :
  Argon2.WithOptions L (Argon2.ProfileRFC9106Recommended_Hasher L)
    (GeneratedSalt.hasher_options data) = (Some e, hs) ->
  HasError (Props.gs_helper_diags L dg data w) = true.
Proof.
  intros Hw. unfold Props.gs_helper_diags, GeneratedSalt.generatePassword.
  rewrite Hw. cbn -[HasError AddError].
  destruct (Argon2.Hash L hs _ _) as [[d|e'] en]; cbn -[HasError AddError].
  - apply HasError_AddError.
  - apply HasError_AddError.
Qed.

Lemma gs_helper_diags_failure L dg data w :
  Props.gs_digest L data w = None ->
  HasError (Props.gs_helper_diags L dg data w) = true.
Proof.
  unfold Props.gs_digest, Props.gs_helper_diags, GeneratedSalt.generatePassword.
  destruct (Argon2.WithOptions L _ _) as [err hs]. cbn -[HasError AddError].
  destruct (Argon2.Hash L hs _ _) as [[d|e'] en]; cbn -[HasError AddError].
  - discriminate.
  - intros _. apply HasError_AddError.
Qed.

Lemma es_helper_diags_failure L dg data w :
  Props.es_digest L data w = None ->
  HasError (Props.es_helper_diags L dg data w) = true.
Proof.
  unfold Props.es_digest, Props.es_helper_diags, ExplicitSalt.generatePassword.
  destruct (Argon2.New L _) as [hs|e]; cbn -[HasError AddError].
  2:{ intros _. apply HasError_AddError. }
  destruct (Argon2.Hash L hs _ _) as [[d|e'] en]; cbn -[HasError AddError].
  - discriminate.
  - intros _. apply HasError_AddError.
Qed.

(** The diagnostics of the response of Create and Update are those the
    call started with, whatever the hashing helper recorded. *)
Lemma gs_Create_diagnostics L data resp w :
  resp_Diagnostics (fst (runState
    (GeneratedSalt.Create L (mkCreateRequest (mkData (Some data))) resp) w))
  = resp_Diagnostics resp.
Proof.
  unfold GeneratedSalt.Create. cbn. destruct (existsb _ _); [reflexivity|]. cbn.
  destruct (runState (GeneratedSalt.generatePassword L _ _) w) as [[dg od] w'].
  cbn. destruct od; reflexivity.
Qed.

Lemma gs_Update_diagnostics L prior desired resp w :
  resp_Diagnostics (fst (runState
    (GeneratedSalt.Update L (Props.gs_update desired prior) resp) w))
  = resp_Diagnostics resp.
Proof.
  unfold GeneratedSalt.Update. cbn. destruct (existsb _ _); [reflexivity|]. cbn.
  destruct (StringEqual _ _); [reflexivity|]. cbn.
  destruct (runState (GeneratedSalt.generatePassword L _ _) w) as [[dg od] w'].
  cbn. destruct od; reflexivity.
Qed.

Lemma es_Create_diagnostics L data resp w :
  resp_Diagnostics (fst (runState
    (ExplicitSalt.Create L (mkCreateRequest (mkData (Some data))) resp) w))
  = resp_Diagnostics resp.
Proof.
  unfold ExplicitSalt.Create. cbn. destruct (existsb _ _); [reflexivity|]. cbn.
  destruct (runState (ExplicitSalt.generatePassword L _ _) w) as [[dg od] w'].
  cbn. destruct od; reflexivity.
Qed.

Lemma es_Update_diagnostics L prior desired resp w :
  resp_Diagnostics (fst (runState
    (ExplicitSalt.Update L (Props.es_update desired prior) resp) w))
  = resp_Diagnostics resp.
Proof.
  unfold ExplicitSalt.Update. cbn. destruct (existsb _ _); [reflexivity|]. cbn.
  destruct (StringEqual _ _); [reflexivity|]. cbn.
  destruct (runState (ExplicitSalt.generatePassword L _ _) w) as [[dg od] w'].
  cbn. destruct od; reflexivity.
Qed.

(** C5 does not hold of the code.  The hashing helper receives the
    diagnostics of the response by value, so the errors it adds stay in
    its own copy: for every plan, Create and Update return the
    diagnostics they started with.  At the concrete inputs below the
    helper did record an error (iterations [0] in the first, an exhausted
    random source in the other two), and the response reports none. *)
Theorem hashing_diagnostics_do_not_reach_caller :
  (forall L data resp w,
     resp_Diagnostics (fst (runState
       (GeneratedSalt.Create L (mkCreateRequest (mkData (Some data))) resp) w))
     = resp_Diagnostics resp)
  /\
  (forall L prior desired resp w,
     resp_Diagnostics (fst (runState
       (GeneratedSalt.Update L (Props.gs_update desired prior) resp) w))
     = resp_Diagnostics resp)
  /\
  (forall L data resp w,
     resp_Diagnostics (fst (runState
       (ExplicitSalt.Create L (mkCreateRequest (mkData (Some data))) resp) w))
     = resp_Diagnostics resp)
  /\
  (forall L prior desired resp w,
     resp_Diagnostics (fst (runState
       (ExplicitSalt.Update L (Props.es_update desired prior) resp) w))
     = resp_Diagnostics resp)
  /\
  (HasError (Props.gs_helper_diags RefLib.lib []
               (GeneratedSalt.with_Id Examples.gs_plan_zero_iterations
                  (StringValue "argon2-id")) Examples.w0) = true
   /\ resp_Diagnostics (fst (runState
        (GeneratedSalt.Create RefLib.lib
           (mkCreateRequest (mkData (Some Examples.gs_plan_zero_iterations)))
           (GeneratedSalt.fresh_response (mkData None))) Examples.w0)) = [])
  /\
  (HasError (Props.gs_helper_diags RefLib.lib []
               (GeneratedSalt.with_Id Examples.gs_plan (StringValue "argon2-id"))
               Examples.w_dry) = true
   /\ runState
        (GeneratedSalt.Create RefLib.lib (mkCreateRequest (mkData (Some Examples.gs_plan)))
           (GeneratedSalt.fresh_response (mkData None))) Examples.w_dry
      = (mkResponse [] (mkData None),
         Effects.mkWorld (L := RefLib.lib) [] 1 []))
  /\
  (HasError (Props.es_helper_diags RefLib.lib [] Examples.es_desired_new
               Examples.w_dry) = true
   /\ runState
        (ExplicitSalt.Update RefLib.lib
           (Props.es_update Examples.es_desired_new Examples.es_prior)
           (ExplicitSalt.fresh_response (mkData (Some Examples.es_prior))))
        Examples.w_dry
      = (mkResponse [] (mkData (Some Examples.es_prior)),
         Effects.mkWorld (L := RefLib.lib) [] 1 [])).
Proof.
  split; [exact gs_Create_diagnostics|].
  split; [exact gs_Update_diagnostics|].
  split; [exact es_Create_diagnostics|].
  split; [exact es_Update_diagnostics|].
  split; [|split]; split; reflexivity.
Qed.

(** *** Invalid cost parameters *)

(** C6 does not hold of the code.  In the engine-generated-salt edition
    the helper goes on to [hasher.Hash] after [WithOptions] has failed:
    every invocation makes exactly one hash call.  With iterations [0]
    (and with key length [0]) the options are rejected, yet a digest is
    computed, from the hasher as the rejected option list left it, and
    Create persists it without any diagnostic. *)
Theorem invalid_parameters_still_hash :
  (forall L dg data w,
     Effects.hash_calls (snd (runState (GeneratedSalt.generatePassword L dg data) w))
     = S (Effects.hash_calls w))
  /\
  (let data := GeneratedSalt.with_Id Examples.gs_plan_zero_iterations
                 (StringValue "argon2-id") in
   let d := RefLib.mkDigest RefLib.profile_hasher "s"%char "example-password" in
   fst (RefLib.with_options RefLib.profile_hasher (GeneratedSalt.hasher_options data))
   = Some "argon2 validation error: parameter is invalid: t"
   /\ runState (GeneratedSalt.generatePassword RefLib.lib [] data) Examples.w0
      = (([NewErrorDiagnostic "Argon 2 initialization error"
             "Unable to generate hash, got error argon2 validation error: parameter is invalid: t"],
          Some d),
         Effects.mkWorld (L := RefLib.lib) ["t"%char; "u"%char] 1 [])
   /\ fst (runState
        (GeneratedSalt.Create RefLib.lib
           (mkCreateRequest (mkData (Some Examples.gs_plan_zero_iterations)))
           (GeneratedSalt.fresh_response (mkData None))) Examples.w0)
      = mkResponse []
          (mkData (Some (GeneratedSalt.with_Hash data
                           (StringValue (RefLib.digest_string d))))))
  /\
  (let data := Examples.gs_plan_zero_key_len in
   fst (RefLib.with_options RefLib.profile_hasher (GeneratedSalt.hasher_options data))
   = Some "argon2 validation error: parameter is invalid: k"
   /\ Props.gs_digest RefLib.lib data Examples.w0
      = Some (RefLib.mkDigest (RefLib.mkHasher Argon2.VariantID 3 2097152 4 32)
                "s"%char "example-password")
   /\ Effects.hash_calls
        (snd (runState (GeneratedSalt.generatePassword RefLib.lib [] data) Examples.w0))
      = 1).
Proof.
  split; [|split].
  - intros L dg data w. apply (gs_generatePassword_run L dg data w).
  - cbv zeta. split; [reflexivity | split; reflexivity].
  - cbv zeta. split; [reflexivity | split; reflexivity].
Qed.

(** *** What the digest is computed from *)

(** In the engine-generated-salt edition the hasher is configured from
    the cost attributes of the record; with the reference instance and
    parameters in range the digest carries them. *)
Lemma gs_digest_carries_costs (pw : string) (k th m it : Z) h i s rest n lg :
  RefLib.in_range RefLib.IterationsMin RefLib.IterationsMax it = true ->
  RefLib.in_range RefLib.KeyLengthMin RefLib.KeyLengthMax k = true ->
  RefLib.in_range RefLib.MemoryMin RefLib.MemoryMax (uint32_of_int32 m) = true ->
  RefLib.in_range RefLib.ParallelismMin RefLib.ParallelismMax th = true ->
  Props.gs_digest RefLib.lib
    (GeneratedSalt.mkModel (StringValue pw) (Int32Value k) (Int32Value th)
       (Int32Value m) (Int32Value it) h i)
    (Effects.mkWorld (L := RefLib.lib) (s :: rest) n lg)
  = Some (RefLib.mkDigest
            (RefLib.mkHasher Argon2.VariantID it (uint32_of_int32 m) th k) s pw).
Proof.
  intros Hit Hk Hm Hth.
  unfold Props.gs_digest, GeneratedSalt.generatePassword, GeneratedSalt.hasher_options.
  cbn -[RefLib.in_range uint32_of_int32]. unfold int_of_int32.
  rewrite Hit. cbn -[RefLib.in_range uint32_of_int32].
  rewrite Hk. cbn -[RefLib.in_range uint32_of_int32].
  rewrite Hm. cbn -[RefLib.in_range uint32_of_int32].
  rewrite Hth. reflexivity.
Qed.

(** C7 does not hold of the explicit-salt edition.  Its hashing helper
    reads the secret only: two records with the same secret get the same
    result in the same world, whatever their salt and cost attributes.
    Created from the same world, the plans with salt [example-salt] and
    [new-salt] get the same hash, and the digest carries the parameters
    of the recommended profile, not those of the record (memory [65536],
    iterations [3]). *)
Theorem explicit_salt_digest_ignores_salt_and_costs :
  (forall L dg w pw salt salt' k k' t t' th th' m m' it it' h h' i i',
     runState (ExplicitSalt.generatePassword L dg
                 (ExplicitSalt.mkModel salt pw k t th m it h i)) w
     = runState (ExplicitSalt.generatePassword L dg
                   (ExplicitSalt.mkModel salt' pw k' t' th' m' it' h' i')) w)
  /\ ExplicitSalt.Salt Examples.es_plan <> ExplicitSalt.Salt Examples.es_plan_new_salt
  /\ Examples.es_created_hash Examples.es_plan
     = Examples.es_created_hash Examples.es_plan_new_salt
  /\ Examples.es_created_hash Examples.es_plan
     = Some (StringValue (RefLib.digest_string
               (RefLib.mkDigest RefLib.profile_hasher "s"%char "example-password")))
  /\ RefLib.h_m RefLib.profile_hasher
     <> ValueInt32 (ExplicitSalt.Memory Examples.es_plan)
  /\ RefLib.h_t RefLib.profile_hasher
     <> ValueInt32 (ExplicitSalt.Iterations Examples.es_plan).
Proof.
  split; [reflexivity|].
  split; [cbn; discriminate|].
  split; [reflexivity|]. split; [reflexivity|].
  split; cbn; discriminate.
Qed.

(* ===================================================================== *)
(** ** Further properties of the handlers                                *)
(* ===================================================================== *)

(** *** Requests that cannot be read, responses that carry an error *)

Lemma HasError_Append_mono (ds ds' : Diagnostics) :
  HasError ds = true -> HasError (Append ds ds') = true.
Proof.
  unfold Append. revert ds. induction ds' as [|d rest IH]; intros ds H; cbn.
  - exact H.
  - apply IH. destruct (Contains ds d); [exact H|].
    rewrite HasError_app, H. reflexivity.
Qed.

Lemma gs_Update_absent L req resp w :
  Raw (update_Plan req) = None ->
  runState (GeneratedSalt.Update L req resp) w
  = (append_diags resp [null_object_diag], w).
Proof.
  intros Hp. unfold GeneratedSalt.Update, Get. rewrite Hp.
  cbn -[HasError Append]. rewrite HasError_null_object. reflexivity.
Qed.

Lemma es_Update_absent L req resp w :
  Raw (update_Plan req) = None ->
  runState (ExplicitSalt.Update L req resp) w
  = (append_diags resp [null_object_diag], w).
Proof.
  intros Hp. unfold ExplicitSalt.Update, Get. rewrite Hp.
  cbn -[HasError Append]. rewrite HasError_null_object. reflexivity.
Qed.

(** X1. A Create or Update call whose plan is a null object stops at
    its first test: the response gets an error diagnostic, its state is
    the one the call started with, and the world is untouched (no hash,
    no log). *)
Theorem null_plan_aborts (L : Argon2.Lib) :
  (forall req resp w,
     Raw (create_Plan req) = None ->
     let r := runState (GeneratedSalt.Create L req resp) w in
     resp_State (fst r) = resp_State resp
     /\ HasError (resp_Diagnostics (fst r)) = true /\ snd r = w)
  /\
  (forall req resp w,
     Raw (update_Plan req) = None ->
     let r := runState (GeneratedSalt.Update L req resp) w in
     resp_State (fst r) = resp_State resp
     /\ HasError (resp_Diagnostics (fst r)) = true /\ snd r = w)
  /\
  (forall req resp w,
     Raw (create_Plan req) = None ->
     let r := runState (ExplicitSalt.Create L req resp) w in
     resp_State (fst r) = resp_State resp
     /\ HasError (resp_Diagnostics (fst r)) = true /\ snd r = w)
  /\
  (forall req resp w,
     Raw (update_Plan req) = None ->
     let r := runState (ExplicitSalt.Update L req resp) w in
     resp_State (fst r) = resp_State resp
     /\ HasError (resp_Diagnostics (fst r)) = true /\ snd r = w).
Proof.
  split; [|split; [|split]]; intros req resp w Hp r; subst r.
  - rewrite (gs_Create_absent L req resp w Hp).
    cbn -[HasError Append]. rewrite HasError_null_object. auto.
  - rewrite (gs_Update_absent L req resp w Hp).
    cbn -[HasError Append]. rewrite HasError_null_object. auto.
  - rewrite (es_Create_absent L req resp w Hp).
    cbn -[HasError Append]. rewrite HasError_null_object. auto.
  - rewrite (es_Update_absent L req resp w Hp).
    cbn -[HasError Append]. rewrite HasError_null_object. auto.
Qed.

Lemma null_plan_aborts_witness :
  let r := runState (GeneratedSalt.Update RefLib.lib
                       (mkUpdateRequest (mkData None) (mkData (Some Examples.gs_prior)))
                       (GeneratedSalt.fresh_response (mkData (Some Examples.gs_prior))))
                    Examples.w0 in
  resp_State (fst r) = mkData (Some Examples.gs_prior)
  /\ HasError (resp_Diagnostics (fst r)) = true /\ snd r = Examples.w0.
Proof.
  exact (proj1 (proj2 (null_plan_aborts RefLib.lib))
           (mkUpdateRequest (mkData None) (mkData (Some Examples.gs_prior)))
           (GeneratedSalt.fresh_response (mkData (Some Examples.gs_prior)))
           Examples.w0 eq_refl).
Defined.



(** X3. A call whose response already carries an error does nothing:
    Create, Read and Update return with the state they were given, the
    error still reported, and the world untouched, whatever the request
    holds. *)
Theorem errored_response_is_left_alone (L : Argon2.Lib) :
  (forall creq rreq ureq resp w,
     HasError (resp_Diagnostics resp) = true ->
     let c := runState (GeneratedSalt.Create L creq resp) w in
     let r := runState (GeneratedSalt.Read L rreq resp) w in
     let u := runState (GeneratedSalt.Update L ureq resp) w in
     (resp_State (fst c) = resp_State resp
      /\ HasError (resp_Diagnostics (fst c)) = true /\ snd c = w)
     /\ (resp_State (fst r) = resp_State resp
         /\ HasError (resp_Diagnostics (fst r)) = true /\ snd r = w)
     /\ (resp_State (fst u) = resp_State resp
         /\ HasError (resp_Diagnostics (fst u)) = true /\ snd u = w))
  /\
  (forall creq rreq ureq resp w,
     HasError (resp_Diagnostics resp) = true ->
     let c := runState (ExplicitSalt.Create L creq resp) w in
     let r := runState (ExplicitSalt.Read L rreq resp) w in
     let u := runState (ExplicitSalt.Update L ureq resp) w in
     (resp_State (fst c) = resp_State resp
      /\ HasError (resp_Diagnostics (fst c)) = true /\ snd c = w)
     /\ (resp_State (fst r) = resp_State resp
         /\ HasError (resp_Diagnostics (fst r)) = true /\ snd r = w)
     /\ (resp_State (fst u) = resp_State resp
         /\ HasError (resp_Diagnostics (fst u)) = true /\ snd u = w)).
Proof.
  split; intros creq rreq ureq resp w He c r u; subst c r u.
  - split; [|split].
    + unfold GeneratedSalt.Create. destruct (Get _ _) as [ds data].
      cbn -[HasError Append]. rewrite (HasError_Append_mono _ ds He).
      cbn -[HasError Append]. rewrite (HasError_Append_mono _ ds He). auto.
    + unfold GeneratedSalt.Read. destruct (Get _ _) as [ds data].
      cbn -[HasError Append]. rewrite (HasError_Append_mono _ ds He).
      cbn -[HasError Append]. rewrite (HasError_Append_mono _ ds He). auto.
    + unfold GeneratedSalt.Update. destruct (Get _ _) as [ds data].
      cbn -[HasError Append]. rewrite (HasError_Append_mono _ ds He).
      cbn -[HasError Append]. rewrite (HasError_Append_mono _ ds He). auto.
  - split; [|split].
    + unfold ExplicitSalt.Create. destruct (Get _ _) as [ds data].
      cbn -[HasError Append]. rewrite (HasError_Append_mono _ ds He).
      cbn -[HasError Append]. rewrite (HasError_Append_mono _ ds He). auto.
    + unfold ExplicitSalt.Read. destruct (Get _ _) as [ds data].
      cbn -[HasError Append]. rewrite (HasError_Append_mono _ ds He).
      cbn -[HasError Append]. rewrite (HasError_Append_mono _ ds He). auto.
    + unfold ExplicitSalt.Update. destruct (Get _ _) as [ds data].
      cbn -[HasError Append]. rewrite (HasError_Append_mono _ ds He).
      cbn -[HasError Append]. rewrite (HasError_Append_mono _ ds He). auto.
Qed.

Lemma errored_response_is_left_alone_witness :
  let resp := mkResponse Scenarios.errored_diags (mkData (Some Examples.gs_prior)) in
  let u := runState (GeneratedSalt.Update RefLib.lib
                       (Props.gs_update Examples.gs_desired_new Examples.gs_prior) resp)
                    Examples.w0 in
  resp_State (fst u) = mkData (Some Examples.gs_prior)
  /\ HasError (resp_Diagnostics (fst u)) = true /\ snd u = Examples.w0.
Proof.
  exact (proj2 (proj2 (proj1 (errored_response_is_left_alone RefLib.lib)
           (mkCreateRequest (mkData (Some Examples.gs_plan)))
           (mkReadRequest (mkData (Some Examples.gs_prior)))
           (Props.gs_update Examples.gs_desired_new Examples.gs_prior)
           (mkResponse Scenarios.errored_diags (mkData (Some Examples.gs_prior)))
           Examples.w0 eq_refl))).
Defined.

(** *** What a call writes, and what it costs *)

(** X4. The record a call writes takes every attribute from the plan
    except the hash, and at Create the identifier: Create either leaves
    the state alone or writes the planned record with the identifier
    ["argon2-id"] and a known hash; Update either leaves the state alone
    or writes the planned record with some hash. *)
Theorem written_record_follows_plan (L : Argon2.Lib) :
  (forall data resp w,
     let r := runState (GeneratedSalt.Create L (mkCreateRequest (mkData (Some data)))
                          resp) w in
     resp_State (fst r) = resp_State resp
     \/ exists h,
          Raw (resp_State (fst r))
          = Some (GeneratedSalt.mkModel (GeneratedSalt.Password data)
                    (GeneratedSalt.KeyLen data) (GeneratedSalt.Thread data)
                    (GeneratedSalt.Memory data) (GeneratedSalt.Iterations data)
                    (StringValue h) (StringValue "argon2-id")))
  /\
  (forall prior desired resp w,
     let r := runState (GeneratedSalt.Update L (Props.gs_update desired prior) resp) w in
     resp_State (fst r) = resp_State resp
     \/ exists h,
          Raw (resp_State (fst r))
          = Some (GeneratedSalt.mkModel (GeneratedSalt.Password desired)
                    (GeneratedSalt.KeyLen desired) (GeneratedSalt.Thread desired)
                    (GeneratedSalt.Memory desired) (GeneratedSalt.Iterations desired)
                    h (GeneratedSalt.Id desired)))
  /\
  (forall data resp w,
     let r := runState (ExplicitSalt.Create L (mkCreateRequest (mkData (Some data)))
                          resp) w in
     resp_State (fst r) = resp_State resp
     \/ exists h,
          Raw (resp_State (fst r))
          = Some (ExplicitSalt.mkModel (ExplicitSalt.Salt data)
                    (ExplicitSalt.Password data) (ExplicitSalt.KeyLen data)
                    (ExplicitSalt.Time data) (ExplicitSalt.Thread data)
                    (ExplicitSalt.Memory data) (ExplicitSalt.Iterations data)
                    (StringValue h) (StringValue "argon2-id")))
  /\
  (forall prior desired resp w,
     let r := runState (ExplicitSalt.Update L (Props.es_update desired prior) resp) w in
     resp_State (fst r) = resp_State resp
     \/ exists h,
          Raw (resp_State (fst r))
          = Some (ExplicitSalt.mkModel (ExplicitSalt.Salt desired)
                    (ExplicitSalt.Password desired) (ExplicitSalt.KeyLen desired)
                    (ExplicitSalt.Time desired) (ExplicitSalt.Thread desired)
                    (ExplicitSalt.Memory desired) (ExplicitSalt.Iterations desired)
                    h (ExplicitSalt.Id desired))).
Proof.
  split; [|split; [|split]].
  - intros data resp w r. subst r.
    destruct (gs_Create_state L (mkCreateRequest (mkData (Some data))) resp w)
      as [Hu | [data' [d [Hp [_ Hw]]]]]; [left; exact Hu|].
    cbn in Hp. injection Hp as <-. right. eexists. rewrite Hw. reflexivity.
  - intros prior desired resp w r. subst r.
    destruct (HasError (resp_Diagnostics resp)) eqn:He.
    { left. rewrite (gs_Update_errored L prior desired resp w He). reflexivity. }
    destruct (StringEqual (GeneratedSalt.Password prior) (GeneratedSalt.Password desired))
      eqn:Heq.
    + apply StringEqual_eq in Heq. symmetry in Heq.
      rewrite (gs_Update_same L prior desired resp w He Heq).
      right. eexists. reflexivity.
    + rewrite (gs_Update_changed L prior desired resp w He Heq).
      destruct (Props.gs_digest L desired w); [right; eexists; reflexivity|].
      left. reflexivity.
  - intros data resp w r. subst r.
    destruct (es_Create_state L (mkCreateRequest (mkData (Some data))) resp w)
      as [Hu | [data' [d [Hp [_ Hw]]]]]; [left; exact Hu|].
    cbn in Hp. injection Hp as <-. right. eexists. rewrite Hw. reflexivity.
  - intros prior desired resp w r. subst r.
    destruct (HasError (resp_Diagnostics resp)) eqn:He.
    { left. rewrite (es_Update_errored L prior desired resp w He). reflexivity. }
    destruct (StringEqual (ExplicitSalt.Password prior) (ExplicitSalt.Password desired))
      eqn:Heq.
    + apply StringEqual_eq in Heq. symmetry in Heq.
      rewrite (es_Update_same L prior desired resp w He Heq).
      right. eexists. reflexivity.
    + rewrite (es_Update_changed L prior desired resp w He Heq).
      destruct (Props.es_digest L desired w); [right; eexists; reflexivity|].
      left. reflexivity.
Qed.

(** The world after Create on a readable plan. *)
Lemma gs_Create_world L data resp w :
  HasError (resp_Diagnostics resp) = false ->
  let r := runState (GeneratedSalt.Create L (mkCreateRequest (mkData (Some data)))
                       resp) w in
  Effects.hash_calls (snd r) = S (Effects.hash_calls w)
  /\ Effects.trace_log (snd r)
     = (Effects.trace_log w
        ++ match Props.gs_digest L data w with
           | Some _ => ["created a resource"]
           | None => []
           end)%list.
Proof.
  intros He. unfold GeneratedSalt.Create, Props.gs_digest. enter_handler He.
  unfold GeneratedSalt.generatePassword. cbn.
  destruct (Argon2.WithOptions L _ _) as [err hs]. cbn.
  destruct (Argon2.Hash L hs _ _) as [[d|e] en]; cbn; split; try reflexivity.
  symmetry. apply app_nil_r.
Qed.

Lemma es_Create_world L data resp w :
  HasError (resp_Diagnostics resp) = false ->
  let r := runState (ExplicitSalt.Create L (mkCreateRequest (mkData (Some data)))
                       resp) w in
  Effects.hash_calls (snd r)
  = Effects.hash_calls w
    + match Argon2.New L [Argon2.WithProfileRFC9106Recommended] with
      | inl _ => 1
      | inr _ => 0
      end
  /\ Effects.trace_log (snd r)
     = (Effects.trace_log w
        ++ match Props.es_digest L data w with
           | Some _ => ["created a resource"]
           | None => []
           end)%list.
Proof.
  intros He. unfold ExplicitSalt.Create, Props.es_digest. enter_handler He.
  unfold ExplicitSalt.generatePassword. cbn.
  destruct (Argon2.New L _) as [hs|e]; cbn.
  2:{ split; [lia | symmetry; apply app_nil_r]. }
  destruct (Argon2.Hash L hs _ _) as [[d|e] en]; cbn; split; try lia; try reflexivity.
  symmetry. apply app_nil_r.
Qed.

(** X5. Create on a readable plan makes one hash call (none in the
    explicit-salt edition when the hasher cannot be built) and writes
    the log line ["created a resource"] exactly when the hashing
    invocation returned a digest, that is, when it writes the state. *)
Theorem create_hashes_once_and_logs_on_success (L : Argon2.Lib) :
  (forall data resp w,
     HasError (resp_Diagnostics resp) = false ->
     let r := runState (GeneratedSalt.Create L (mkCreateRequest (mkData (Some data)))
                          resp) w in
     Effects.hash_calls (snd r) = S (Effects.hash_calls w)
     /\ Effects.trace_log (snd r)
        = (Effects.trace_log w
           ++ match Props.gs_digest L data w with
              | Some _ => ["created a resource"]
              | None => []
              end)%list)
  /\
  (forall data resp w,
     HasError (resp_Diagnostics resp) = false ->
     let r := runState (ExplicitSalt.Create L (mkCreateRequest (mkData (Some data)))
                          resp) w in
     Effects.hash_calls (snd r)
     = Effects.hash_calls w
       + match Argon2.New L [Argon2.WithProfileRFC9106Recommended] with
         | inl _ => 1
         | inr _ => 0
         end
     /\ Effects.trace_log (snd r)
        = (Effects.trace_log w
           ++ match Props.es_digest L data w with
              | Some _ => ["created a resource"]
              | None => []
              end)%list).
Proof.
  split.
  - exact (gs_Create_world L).
  - exact (es_Create_world L).
Qed.

Lemma create_hashes_once_and_logs_on_success_witness :
  (let r := runState (GeneratedSalt.Create RefLib.lib
                        (mkCreateRequest (mkData (Some Examples.gs_plan)))
                        (GeneratedSalt.fresh_response (mkData None))) Examples.w0 in
   Effects.hash_calls (snd r) = 1
   /\ Effects.trace_log (snd r) = ["created a resource"])
  /\
  (let r := runState (ExplicitSalt.Create RefLib.lib
                        (mkCreateRequest (mkData (Some Examples.es_plan)))
                        (ExplicitSalt.fresh_response (mkData None))) Examples.w_dry in
   Effects.hash_calls (snd r) = 1
   /\ Effects.trace_log (snd r) = []).
Proof.
  split.
  - exact (proj1 (create_hashes_once_and_logs_on_success RefLib.lib)
             Examples.gs_plan (GeneratedSalt.fresh_response (mkData None))
             Examples.w0 eq_refl).
  - exact (proj2 (create_hashes_once_and_logs_on_success RefLib.lib)
             Examples.es_plan (ExplicitSalt.fresh_response (mkData None))
             Examples.w_dry eq_refl).
Defined.

(** *** The lifecycle as a whole *)

(** One Update call makes at most one hash call and writes no log,
    whatever its request and response. *)
Lemma gs_Update_cost L req resp w :
  let r := runState (GeneratedSalt.Update L req resp) w in
  Effects.hash_calls w <= Effects.hash_calls (snd r) <= S (Effects.hash_calls w)
  /\ Effects.trace_log (snd r) = Effects.trace_log w.
Proof.
  unfold GeneratedSalt.Update. destruct (Get (update_Plan req) _) as [ds data].
  cbn -[HasError]. destruct (HasError _); cbn; [split; [lia | reflexivity]|].
  destruct (Get (update_State req) _) as [ds' old]. cbn.
  destruct (StringEqual _ _); cbn; [split; [lia | reflexivity]|].
  unfold GeneratedSalt.generatePassword.
  destruct (Argon2.WithOptions L _ _) as [err hs]. cbn.
  destruct (Argon2.Hash L hs _ _) as [[d|e] en]; cbn; split; (lia || reflexivity).
Qed.

Lemma es_Update_cost L req resp w :
  let r := runState (ExplicitSalt.Update L req resp) w in
  Effects.hash_calls w <= Effects.hash_calls (snd r) <= S (Effects.hash_calls w)
  /\ Effects.trace_log (snd r) = Effects.trace_log w.
Proof.
  unfold ExplicitSalt.Update. destruct (Get (update_Plan req) _) as [ds data].
  cbn -[HasError]. destruct (HasError _); cbn; [split; [lia | reflexivity]|].
  destruct (Get (update_State req) _) as [ds' old]. cbn.
  destruct (StringEqual _ _); cbn; [split; [lia | reflexivity]|].
  unfold ExplicitSalt.generatePassword.
  destruct (Argon2.New L _) as [hs|e]; cbn; [|split; [lia | reflexivity]].
  destruct (Argon2.Hash L hs _ _) as [[d|e] en]; cbn; split; (lia || reflexivity).
Qed.

Lemma gs_run_cost L evs : forall st w,
  let r := runState (GeneratedSalt.run L evs st) w in
  Effects.hash_calls w <= Effects.hash_calls (snd r)
    <= Effects.hash_calls w + Wiring.gs_updates evs
  /\ Effects.trace_log (snd r) = Effects.trace_log w.
Proof.
  induction evs as [|ev rest IH]; intros st w.
  - cbn. split; [lia | reflexivity].
  - cbn [GeneratedSalt.run runState bind Monad_state].
    destruct ev as [|proposed]; cbn [GeneratedSalt.dispatch runState bind Monad_state ret].
    + pose proof (gs_Read_world L (mkReadRequest st) (GeneratedSalt.fresh_response st) w)
        as Hw.
      destruct (runState (GeneratedSalt.Read L _ _) w) as [resp w1]. cbn in Hw. subst w1.
      cbn [Wiring.gs_updates]. apply IH.
    + pose proof (gs_Update_cost L
                    (mkUpdateRequest (mkData (Some (GeneratedSalt.planned st proposed))) st)
                    (GeneratedSalt.fresh_response st) w) as [Hc Hl].
      destruct (runState (GeneratedSalt.Update L _ _) w) as [resp w1].
      cbn in Hc, Hl. cbn [Wiring.gs_updates].
      specialize (IH (resp_State resp) w1). cbv zeta in IH. destruct IH as [IHc IHl].
      split; [lia | congruence].
Qed.

Lemma es_run_cost L evs : forall st w,
  let r := runState (ExplicitSalt.run L evs st) w in
  Effects.hash_calls w <= Effects.hash_calls (snd r)
    <= Effects.hash_calls w + Wiring.es_updates evs
  /\ Effects.trace_log (snd r) = Effects.trace_log w.
Proof.
  induction evs as [|ev rest IH]; intros st w.
  - cbn. split; [lia | reflexivity].
  - cbn [ExplicitSalt.run runState bind Monad_state].
    destruct ev as [|proposed]; cbn [ExplicitSalt.dispatch runState bind Monad_state ret].
    + pose proof (es_Read_world L (mkReadRequest st) (ExplicitSalt.fresh_response st) w)
        as Hw.
      destruct (runState (ExplicitSalt.Read L _ _) w) as [resp w1]. cbn in Hw. subst w1.
      cbn [Wiring.es_updates]. apply IH.
    + pose proof (es_Update_cost L
                    (mkUpdateRequest (mkData (Some (ExplicitSalt.planned st proposed))) st)
                    (ExplicitSalt.fresh_response st) w) as [Hc Hl].
      destruct (runState (ExplicitSalt.Update L _ _) w) as [resp w1].
      cbn in Hc, Hl. cbn [Wiring.es_updates].
      specialize (IH (resp_State resp) w1). cbv zeta in IH. destruct IH as [IHc IHl].
      split; [lia | congruence].
Qed.

(** X6. Over any sequence of Read and Update calls, from any state, the
    number of hash calls grows by at most the number of Update calls in
    the sequence (Read never hashes, Update at most once), and nothing
    is written to the log. *)
Theorem lifecycle_hash_budget (L : Argon2.Lib) :
  (forall evs st w,
     let r := runState (GeneratedSalt.run L evs st) w in
     Effects.hash_calls w <= Effects.hash_calls (snd r)
       <= Effects.hash_calls w + Wiring.gs_updates evs
     /\ Effects.trace_log (snd r) = Effects.trace_log w)
  /\
  (forall evs st w,
     let r := runState (ExplicitSalt.run L evs st) w in
     Effects.hash_calls w <= Effects.hash_calls (snd r)
       <= Effects.hash_calls w + Wiring.es_updates evs
     /\ Effects.trace_log (snd r) = Effects.trace_log w).
Proof.
  split.
  - exact (gs_run_cost L).
  - exact (es_run_cost L).
Qed.

(** One framework call on a record with a known hash leaves a record
    with a known hash. *)
Lemma gs_dispatch_hash_known L ev m h w :
  GeneratedSalt.Hash m = StringValue h ->
  exists m' h',
    Raw (fst (runState (GeneratedSalt.dispatch L (mkData (Some m)) ev) w)) = Some m'
    /\ GeneratedSalt.Hash m' = StringValue h'.
Proof.
  intros Hh. destruct ev as [|proposed].
  - exists m, h. cbn. auto.
  - unfold GeneratedSalt.dispatch.
    set (desired := GeneratedSalt.planned (mkData (Some m)) proposed).
    change (mkUpdateRequest (mkData (Some desired)) (mkData (Some m)))
      with (Props.gs_update desired m).
    cbn [runState bind Monad_state ret].
    destruct (runState (GeneratedSalt.Update L _ _) w) as [resp w'] eqn:Hu.
    cbn [fst]. apply (f_equal fst) in Hu. cbn [fst] in Hu. subst resp.
    destruct (StringEqual (GeneratedSalt.Password m) (GeneratedSalt.Password desired))
      eqn:Heq.
    + apply StringEqual_eq in Heq. symmetry in Heq.
      rewrite (gs_Update_same L m desired
                 (GeneratedSalt.fresh_response (mkData (Some m))) w eq_refl Heq). cbn.
      eexists. exists h. split; [reflexivity | exact Hh].
    + rewrite (gs_Update_changed L m desired
                 (GeneratedSalt.fresh_response (mkData (Some m))) w eq_refl Heq).
      destruct (Props.gs_digest L desired w) as [d|]; cbn.
      * eexists. eexists. split; reflexivity.
      * exists m, h. auto.
Qed.

Lemma es_dispatch_hash_known L ev m h w :
  ExplicitSalt.Hash m = StringValue h ->
  exists m' h',
    Raw (fst (runState (ExplicitSalt.dispatch L (mkData (Some m)) ev) w)) = Some m'
    /\ ExplicitSalt.Hash m' = StringValue h'.
Proof.
  intros Hh. destruct ev as [|proposed].
  - exists m, h. cbn. auto.
  - unfold ExplicitSalt.dispatch.
    set (desired := ExplicitSalt.planned (mkData (Some m)) proposed).
    change (mkUpdateRequest (mkData (Some desired)) (mkData (Some m)))
      with (Props.es_update desired m).
    cbn [runState bind Monad_state ret].
    destruct (runState (ExplicitSalt.Update L _ _) w) as [resp w'] eqn:Hu.
    cbn [fst]. apply (f_equal fst) in Hu. cbn [fst] in Hu. subst resp.
    destruct (StringEqual (ExplicitSalt.Password m) (ExplicitSalt.Password desired))
      eqn:Heq.
    + apply StringEqual_eq in Heq. symmetry in Heq.
      rewrite (es_Update_same L m desired
                 (ExplicitSalt.fresh_response (mkData (Some m))) w eq_refl Heq). cbn.
      eexists. exists h. split; [reflexivity | exact Hh].
    + rewrite (es_Update_changed L m desired
                 (ExplicitSalt.fresh_response (mkData (Some m))) w eq_refl Heq).
      destruct (Props.es_digest L desired w) as [d|]; cbn.
      * eexists. eexists. split; reflexivity.
      * exists m, h. auto.
Qed.

Lemma gs_run_hash_known L evs : forall m h w,
  GeneratedSalt.Hash m = StringValue h ->
  exists m' h',
    Raw (fst (runState (GeneratedSalt.run L evs (mkData (Some m))) w)) = Some m'
    /\ GeneratedSalt.Hash m' = StringValue h'.
Proof.
  induction evs as [|ev rest IH]; intros m h w Hh.
  - exists m, h. cbn. auto.
  - cbn [GeneratedSalt.run runState bind Monad_state].
    destruct (gs_dispatch_hash_known L ev m h w Hh) as [m1 [h1 [H1 Hh1]]].
    destruct (runState (GeneratedSalt.dispatch L _ ev) w) as [[raw1] w1].
    cbn in H1. subst raw1. apply (IH m1 h1 w1 Hh1).
Qed.

Lemma es_run_hash_known L evs : forall m h w,
  ExplicitSalt.Hash m = StringValue h ->
  exists m' h',
    Raw (fst (runState (ExplicitSalt.run L evs (mkData (Some m))) w)) = Some m'
    /\ ExplicitSalt.Hash m' = StringValue h'.
Proof.
  induction evs as [|ev rest IH]; intros m h w Hh.
  - exists m, h. cbn. auto.
  - cbn [ExplicitSalt.run runState bind Monad_state].
    destruct (es_dispatch_hash_known L ev m h w Hh) as [m1 [h1 [H1 Hh1]]].
    destruct (runState (ExplicitSalt.dispatch L _ ev) w) as [[raw1] w1].
    cbn in H1. subst raw1. apply (IH m1 h1 w1 Hh1).
Qed.

Lemma hash_known_after_create_gs L plan w evs m0 :
  let c := runState (GeneratedSalt.Create L (mkCreateRequest plan)
                       (GeneratedSalt.fresh_response (mkData None))) w in
  Raw (resp_State (fst c)) = Some m0 ->
  exists m h,
    Raw (fst (runState (GeneratedSalt.run L evs (resp_State (fst c))) (snd c)))
    = Some m
    /\ GeneratedSalt.Hash m = StringValue h.
Proof.
  intros c Hm0.
  assert (Hh : exists h, GeneratedSalt.Hash m0 = StringValue h).
  { destruct (gs_Create_state L (mkCreateRequest plan)
                (GeneratedSalt.fresh_response (mkData None)) w)
      as [Hu | [data [d [_ [_ Hw]]]]]; fold c in Hu || fold c in Hw.
    - rewrite Hu in Hm0. discriminate.
    - rewrite Hw in Hm0. injection Hm0 as <-. eexists. reflexivity. }
  destruct Hh as [h Hh].
  destruct (resp_State (fst c)) as [raw]. cbn in Hm0. subst raw.
  apply (gs_run_hash_known L evs m0 h (snd c) Hh).
Qed.

Lemma hash_known_after_create_es L plan w evs m0 :
  let c := runState (ExplicitSalt.Create L (mkCreateRequest plan)
                       (ExplicitSalt.fresh_response (mkData None))) w in
  Raw (resp_State (fst c)) = Some m0 ->
  exists m h,
    Raw (fst (runState (ExplicitSalt.run L evs (resp_State (fst c))) (snd c)))
    = Some m
    /\ ExplicitSalt.Hash m = StringValue h.
Proof.
  intros c Hm0.
  assert (Hh : exists h, ExplicitSalt.Hash m0 = StringValue h).
  { destruct (es_Create_state L (mkCreateRequest plan)
                (ExplicitSalt.fresh_response (mkData None)) w)
      as [Hu | [data [d [_ [_ Hw]]]]]; fold c in Hu || fold c in Hw.
    - rewrite Hu in Hm0. discriminate.
    - rewrite Hw in Hm0. injection Hm0 as <-. eexists. reflexivity. }
  destruct Hh as [h Hh].
  destruct (resp_State (fst c)) as [raw]. cbn in Hm0. subst raw.
  apply (es_run_hash_known L evs m0 h (snd c) Hh).
Qed.

(** X7. Once Create has written a record, the record stays present and
    its hash stays a known string through every sequence of Read and
    Update calls: no call leaves a null or unknown hash behind, also when
    a later hashing invocation fails. *)
Theorem hash_stays_set (L : Argon2.Lib) :
  (forall plan w evs m0,
     let c := runState (GeneratedSalt.Create L (mkCreateRequest plan)
                          (GeneratedSalt.fresh_response (mkData None))) w in
     Raw (resp_State (fst c)) = Some m0 ->
     exists m h,
       Raw (fst (runState (GeneratedSalt.run L evs (resp_State (fst c))) (snd c)))
       = Some m
       /\ GeneratedSalt.Hash m = StringValue h)
  /\
  (forall plan w evs m0,
     let c := runState (ExplicitSalt.Create L (mkCreateRequest plan)
                          (ExplicitSalt.fresh_response (mkData None))) w in
     Raw (resp_State (fst c)) = Some m0 ->
     exists m h,
       Raw (fst (runState (ExplicitSalt.run L evs (resp_State (fst c))) (snd c)))
       = Some m
       /\ ExplicitSalt.Hash m = StringValue h).
Proof.
  split.
  - exact (hash_known_after_create_gs L).
  - exact (hash_known_after_create_es L).
Qed.

Lemma hash_stays_set_witness :
  let c := runState (GeneratedSalt.Create RefLib.lib
                       (mkCreateRequest (mkData (Some Examples.gs_plan)))
                       (GeneratedSalt.fresh_response (mkData None))) Examples.w0 in
  exists m h,
    Raw (fst (runState (GeneratedSalt.run RefLib.lib Examples.gs_events
                          (resp_State (fst c))) (snd c))) = Some m
    /\ GeneratedSalt.Hash m = StringValue h.
Proof.
  exact (proj1 (hash_stays_set RefLib.lib)
           (mkData (Some Examples.gs_plan)) Examples.w0 Examples.gs_events
           Scenarios.gs_created eq_refl).
Defined.

(** X8. With a hashing library that meets the round-trip contract, the
    hash of the record persisted after Create and any sequence of Read
    and Update calls verifies against the secret of that record: the
    check the acceptance tests make after each step holds after every
    step. *)
Theorem persisted_hash_verifies (L : Argon2.Lib) :
  Props.round_trip L ->
  (forall plan w evs m0,
     let c := runState (GeneratedSalt.Create L (mkCreateRequest plan)
                          (GeneratedSalt.fresh_response (mkData None))) w in
     Raw (resp_State (fst c)) = Some m0 ->
     exists m h,
       Raw (fst (runState (GeneratedSalt.run L evs (resp_State (fst c))) (snd c)))
       = Some m
       /\ GeneratedSalt.Hash m = StringValue h
       /\ Argon2.CheckPassword L (ValueString (GeneratedSalt.Password m)) h = true)
  /\
  (forall plan w evs m0,
     let c := runState (ExplicitSalt.Create L (mkCreateRequest plan)
                          (ExplicitSalt.fresh_response (mkData None))) w in
     Raw (resp_State (fst c)) = Some m0 ->
     exists m h,
       Raw (fst (runState (ExplicitSalt.run L evs (resp_State (fst c))) (snd c)))
       = Some m
       /\ ExplicitSalt.Hash m = StringValue h
       /\ Argon2.CheckPassword L (ValueString (ExplicitSalt.Password m)) h = true).
Proof.
  intros Hrt. split; intros plan w evs m0 c Hm0.
  - destruct (gs_run_coherent L plan w evs m0 Hrt Hm0) as [m [Hm Hco]].
    assert (Hk : exists m' h,
               Raw (fst (runState (GeneratedSalt.run L evs (resp_State (fst c))) (snd c)))
               = Some m' /\ GeneratedSalt.Hash m' = StringValue h).
    { pose proof (hash_known_after_create_gs L plan w evs m0) as H. apply H. exact Hm0. }
    destruct Hk as [m' [h [Hm' Hh]]]. fold c in Hm. rewrite Hm in Hm'.
    injection Hm' as <-. exists m, h. repeat split; try assumption.
    apply Hco. exact Hh.
  - destruct (es_run_coherent L plan w evs m0 Hrt Hm0) as [m [Hm Hco]].
    assert (Hk : exists m' h,
               Raw (fst (runState (ExplicitSalt.run L evs (resp_State (fst c))) (snd c)))
               = Some m' /\ ExplicitSalt.Hash m' = StringValue h).
    { pose proof (hash_known_after_create_es L plan w evs m0) as H. apply H. exact Hm0. }
    destruct Hk as [m' [h [Hm' Hh]]]. fold c in Hm. rewrite Hm in Hm'.
    injection Hm' as <-. exists m, h. repeat split; try assumption.
    apply Hco. exact Hh.
Qed.

Lemma persisted_hash_verifies_witness :
  let c := runState (ExplicitSalt.Create RefLib.lib
                       (mkCreateRequest (mkData (Some Examples.es_plan)))
                       (ExplicitSalt.fresh_response (mkData None))) Examples.w0 in
  exists m h,
    Raw (fst (runState (ExplicitSalt.run RefLib.lib Examples.es_events
                          (resp_State (fst c))) (snd c))) = Some m
    /\ ExplicitSalt.Hash m = StringValue h
    /\ RefLib.check_password (ValueString (ExplicitSalt.Password m)) h = true.
Proof.
  exact (proj2 (persisted_hash_verifies RefLib.lib RefLib_round_trip)
           (mkData (Some Examples.es_plan)) Examples.w0 Examples.es_events
           Scenarios.es_created eq_refl).
Defined.

(** *** Calls in sequence *)

(** An Update call made by the framework on a present record whose
    secret is the planned one writes the planned record with the
    identifier and hash of the prior record, and leaves the world alone. *)
Lemma gs_dispatch_same L m proposed w :
  IsNull (GeneratedSalt.Id m) = false ->
  GeneratedSalt.Password proposed = GeneratedSalt.Password m ->
  runState (GeneratedSalt.dispatch L (mkData (Some m)) (GeneratedSalt.EvUpdate proposed)) w
  = (mkData (Some (GeneratedSalt.with_Hash
                     (GeneratedSalt.with_Id proposed (GeneratedSalt.Id m))
                     (GeneratedSalt.Hash m))), w).
Proof.
  intros Hn Hp. unfold GeneratedSalt.dispatch, GeneratedSalt.planned. cbn [Raw].
  rewrite (UseStateForUnknown_computed _ Hn).
  set (desired := GeneratedSalt.with_Id proposed (GeneratedSalt.Id m)).
  change (mkUpdateRequest (mkData (Some desired)) (mkData (Some m)))
    with (Props.gs_update desired m).
  cbn [runState bind Monad_state ret].
  rewrite (gs_Update_same L m desired
             (GeneratedSalt.fresh_response (mkData (Some m))) w eq_refl Hp).
  reflexivity.
Qed.

Lemma es_dispatch_same L m proposed w :
  IsNull (ExplicitSalt.Id m) = false ->
  ExplicitSalt.Password proposed = ExplicitSalt.Password m ->
  runState (ExplicitSalt.dispatch L (mkData (Some m)) (ExplicitSalt.EvUpdate proposed)) w
  = (mkData (Some (ExplicitSalt.with_Hash
                     (ExplicitSalt.with_Id proposed (ExplicitSalt.Id m))
                     (ExplicitSalt.Hash m))), w).
Proof.
  intros Hn Hp. unfold ExplicitSalt.dispatch, ExplicitSalt.planned. cbn [Raw].
  rewrite (UseStateForUnknown_computed _ Hn).
  set (desired := ExplicitSalt.with_Id proposed (ExplicitSalt.Id m)).
  change (mkUpdateRequest (mkData (Some desired)) (mkData (Some m)))
    with (Props.es_update desired m).
  cbn [runState bind Monad_state ret].
  rewrite (es_Update_same L m desired
             (ExplicitSalt.fresh_response (mkData (Some m))) w eq_refl Hp).
  reflexivity.
Qed.

(** X9. Create followed by an Update that keeps the secret: the hash is
    the one Create computed, whatever else the second plan changes (cost
    attributes, salt), and the second call neither hashes nor reads the
    random source. *)
Theorem create_then_update_same_secret (L : Argon2.Lib) :
  (forall plan proposed w m0,
     let c := runState (GeneratedSalt.Create L (mkCreateRequest (mkData (Some plan)))
                          (GeneratedSalt.fresh_response (mkData None))) w in
     Raw (resp_State (fst c)) = Some m0 ->
     GeneratedSalt.Password proposed = GeneratedSalt.Password plan ->
     runState (GeneratedSalt.dispatch L (resp_State (fst c))
                 (GeneratedSalt.EvUpdate proposed)) (snd c)
     = (mkData (Some (GeneratedSalt.with_Hash
                        (GeneratedSalt.with_Id proposed (StringValue "argon2-id"))
                        (GeneratedSalt.Hash m0))), snd c))
  /\
  (forall plan proposed w m0,
     let c := runState (ExplicitSalt.Create L (mkCreateRequest (mkData (Some plan)))
                          (ExplicitSalt.fresh_response (mkData None))) w in
     Raw (resp_State (fst c)) = Some m0 ->
     ExplicitSalt.Password proposed = ExplicitSalt.Password plan ->
     runState (ExplicitSalt.dispatch L (resp_State (fst c))
                 (ExplicitSalt.EvUpdate proposed)) (snd c)
     = (mkData (Some (ExplicitSalt.with_Hash
                        (ExplicitSalt.with_Id proposed (StringValue "argon2-id"))
                        (ExplicitSalt.Hash m0))), snd c)).
Proof.
  split; intros plan proposed w m0 c Hm0 Hp.
  - destruct (gs_Create_state L (mkCreateRequest (mkData (Some plan)))
                (GeneratedSalt.fresh_response (mkData None)) w)
      as [Hu | [data [d [Hpl [_ Hw]]]]]; fold c in Hu || fold c in Hw.
    { rewrite Hu in Hm0. discriminate. }
    cbn in Hpl. injection Hpl as <-. rewrite Hw in Hm0. injection Hm0 as <-.
    destruct (resp_State (fst c)) as [raw]. cbn in Hw. subst raw.
    rewrite gs_dispatch_same; [reflexivity | reflexivity | exact Hp].
  - destruct (es_Create_state L (mkCreateRequest (mkData (Some plan)))
                (ExplicitSalt.fresh_response (mkData None)) w)
      as [Hu | [data [d [Hpl [_ Hw]]]]]; fold c in Hu || fold c in Hw.
    { rewrite Hu in Hm0. discriminate. }
    cbn in Hpl. injection Hpl as <-. rewrite Hw in Hm0. injection Hm0 as <-.
    destruct (resp_State (fst c)) as [raw]. cbn in Hw. subst raw.
    rewrite es_dispatch_same; [reflexivity | reflexivity | exact Hp].
Qed.

Lemma create_then_update_same_secret_witness :
  let c := runState (ExplicitSalt.Create RefLib.lib
                       (mkCreateRequest (mkData (Some Examples.es_plan)))
                       (ExplicitSalt.fresh_response (mkData None))) Examples.w0 in
  runState (ExplicitSalt.dispatch RefLib.lib (resp_State (fst c))
              (ExplicitSalt.EvUpdate Examples.es_plan_new_salt)) (snd c)
  = (mkData (Some (ExplicitSalt.with_Hash
                     (ExplicitSalt.with_Id Examples.es_plan_new_salt
                        (StringValue "argon2-id"))
                     (ExplicitSalt.Hash Scenarios.es_created))), snd c).
Proof.
  exact (proj2 (create_then_update_same_secret RefLib.lib)
           Examples.es_plan Examples.es_plan_new_salt Examples.w0
           Scenarios.es_created eq_refl eq_refl).
Defined.

Lemma gs_dispatch_update L st proposed w :
  let u := runState (GeneratedSalt.Update L
                       (mkUpdateRequest (mkData (Some (GeneratedSalt.planned st proposed))) st)
                       (GeneratedSalt.fresh_response st)) w in
  runState (GeneratedSalt.dispatch L st (GeneratedSalt.EvUpdate proposed)) w
  = (resp_State (fst u), snd u).
Proof.
  cbn [GeneratedSalt.dispatch runState bind Monad_state ret].
  destruct (runState (GeneratedSalt.Update L _ _) w) as [resp w']. reflexivity.
Qed.

Lemma es_dispatch_update L st proposed w :
  let u := runState (ExplicitSalt.Update L
                       (mkUpdateRequest (mkData (Some (ExplicitSalt.planned st proposed))) st)
                       (ExplicitSalt.fresh_response st)) w in
  runState (ExplicitSalt.dispatch L st (ExplicitSalt.EvUpdate proposed)) w
  = (resp_State (fst u), snd u).
Proof.
  cbn [ExplicitSalt.dispatch runState bind Monad_state ret].
  destruct (runState (ExplicitSalt.Update L _ _) w) as [resp w']. reflexivity.
Qed.

(** X10. An update that went through (the secret was unchanged, or the
    hashing invocation returned a digest) is stable under repetition:
    the framework making the same Update call again gets the same state
    back and the world is not touched a second time. *)
Theorem repeated_update_is_stable (L : Argon2.Lib) :
  (forall m proposed w,
     IsNull (GeneratedSalt.Id m) = false ->
     GeneratedSalt.Password proposed = GeneratedSalt.Password m
       \/ Props.gs_digest L proposed w <> None ->
     let r1 := runState (GeneratedSalt.dispatch L (mkData (Some m))
                           (GeneratedSalt.EvUpdate proposed)) w in
     runState (GeneratedSalt.dispatch L (fst r1) (GeneratedSalt.EvUpdate proposed))
              (snd r1) = r1)
  /\
  (forall m proposed w,
     IsNull (ExplicitSalt.Id m) = false ->
     ExplicitSalt.Password proposed = ExplicitSalt.Password m
       \/ Props.es_digest L proposed w <> None ->
     let r1 := runState (ExplicitSalt.dispatch L (mkData (Some m))
                           (ExplicitSalt.EvUpdate proposed)) w in
     runState (ExplicitSalt.dispatch L (fst r1) (ExplicitSalt.EvUpdate proposed))
              (snd r1) = r1).
Proof.
  split; intros m proposed w Hn Hok r1; subst r1.
  - destruct (StringEqual (GeneratedSalt.Password m) (GeneratedSalt.Password proposed))
      eqn:Heq.
    + apply StringEqual_eq in Heq. symmetry in Heq.
      rewrite (gs_dispatch_same L m proposed w Hn Heq). cbn [fst snd].
      rewrite gs_dispatch_same; [reflexivity | exact Hn | reflexivity].
    + destruct Hok as [Hp | Hd].
      { rewrite Hp, StringEqual_refl in Heq. discriminate. }
      rewrite (gs_dispatch_update L (mkData (Some m)) proposed w). cbv zeta.
      unfold GeneratedSalt.planned. cbn [Raw].
      rewrite (UseStateForUnknown_computed _ Hn).
      set (desired := GeneratedSalt.with_Id proposed (GeneratedSalt.Id m)).
      change (mkUpdateRequest (mkData (Some desired)) (mkData (Some m)))
        with (Props.gs_update desired m).
      rewrite (gs_Update_changed L m desired
                 (GeneratedSalt.fresh_response (mkData (Some m))) w eq_refl Heq).
      change (Props.gs_digest L desired w) with (Props.gs_digest L proposed w).
      destruct (Props.gs_digest L proposed w) as [d|]; [|contradiction].
      cbn [fst snd set_state Set_ resp_State].
      rewrite gs_dispatch_same; [reflexivity | exact Hn | reflexivity].
  - destruct (StringEqual (ExplicitSalt.Password m) (ExplicitSalt.Password proposed))
      eqn:Heq.
    + apply StringEqual_eq in Heq. symmetry in Heq.
      rewrite (es_dispatch_same L m proposed w Hn Heq). cbn [fst snd].
      rewrite es_dispatch_same; [reflexivity | exact Hn | reflexivity].
    + destruct Hok as [Hp | Hd].
      { rewrite Hp, StringEqual_refl in Heq. discriminate. }
      rewrite (es_dispatch_update L (mkData (Some m)) proposed w). cbv zeta.
      unfold ExplicitSalt.planned. cbn [Raw].
      rewrite (UseStateForUnknown_computed _ Hn).
      set (desired := ExplicitSalt.with_Id proposed (ExplicitSalt.Id m)).
      change (mkUpdateRequest (mkData (Some desired)) (mkData (Some m)))
        with (Props.es_update desired m).
      rewrite (es_Update_changed L m desired
                 (ExplicitSalt.fresh_response (mkData (Some m))) w eq_refl Heq).
      change (Props.es_digest L desired w) with (Props.es_digest L proposed w).
      destruct (Props.es_digest L proposed w) as [d|]; [|contradiction].
      cbn [fst snd set_state Set_ resp_State].
      rewrite es_dispatch_same; [reflexivity | exact Hn | reflexivity].
Qed.

Lemma repeated_update_is_stable_witness :
  let r1 := runState (GeneratedSalt.dispatch RefLib.lib (mkData (Some Examples.gs_prior))
                        (GeneratedSalt.EvUpdate Examples.gs_desired_new)) Examples.w0 in
  runState (GeneratedSalt.dispatch RefLib.lib (fst r1)
              (GeneratedSalt.EvUpdate Examples.gs_desired_new)) (snd r1) = r1.
Proof.
  apply (proj1 (repeated_update_is_stable RefLib.lib)
           Examples.gs_prior Examples.gs_desired_new Examples.w0 eq_refl).
  right. discriminate.
Defined.

(** *** Cost parameters handed to the hasher *)

(** X11. [generatePassword] of the engine-generated-salt edition converts
    the memory attribute with [uint32(...)]: a non-negative value is
    handed to [WithMemoryInKiB] unchanged, a negative one wraps around to
    the value plus [2^32], so the option always lies in [0, 2^32). *)
Theorem memory_option_wraps (data : GeneratedSalt.Argon2ResourceModel) :
  let m := ValueInt32 (GeneratedSalt.Memory data) in
  (- 2 ^ 31 <= m < 2 ^ 31)%Z ->
  exists v,
    nth_error (GeneratedSalt.hasher_options data) 2 = Some (Argon2.WithMemoryInKiB v)
    /\ (0 <= v < 2 ^ 32)%Z
    /\ (0 <= m -> v = m)%Z
    /\ (m < 0 -> v = m + 2 ^ 32 /\ 2 ^ 31 <= v)%Z.
Proof.
  intros m Hr. exists (uint32_of_int32 m). unfold uint32_of_int32.
  split; [reflexivity|]. split; [apply Z.mod_pos_bound; lia|]. split.
  - intros Hpos. apply Z.mod_small. lia.
  - intros Hneg.
    assert (Hw : (m mod 2 ^ 32 = m + 2 ^ 32)%Z).
    { rewrite <- (Z_mod_plus_full m 1 (2 ^ 32)). apply Z.mod_small. lia. }
    rewrite Hw. lia.
Qed.

Lemma memory_option_wraps_witness :
  exists v,
    nth_error (GeneratedSalt.hasher_options Scenarios.gs_plan_negative_memory) 2
    = Some (Argon2.WithMemoryInKiB v)
    /\ (0 <= v < 2 ^ 32)%Z
    /\ (0 <= -1 -> v = -1)%Z
    /\ (-1 < 0 -> v = -1 + 2 ^ 32 /\ 2 ^ 31 <= v)%Z.
Proof.
  apply (memory_option_wraps Scenarios.gs_plan_negative_memory). cbn. lia.
Defined.

(** *** Delete *)

(** X12. Delete reads the prior state and nothing more: the state of the
    response and the world are as the call found them; the diagnostics
    are unchanged when the state could be read and report an error when
    it is a null object. *)
Theorem delete_reads_only (L : Argon2.Lib) :
  (forall req resp w,
     let r := runState (GeneratedSalt.Delete L req resp) w in
     resp_State (fst r) = resp_State resp /\ snd r = w
     /\ (Raw (delete_State req) <> None ->
         resp_Diagnostics (fst r) = resp_Diagnostics resp)
     /\ (Raw (delete_State req) = None ->
         HasError (resp_Diagnostics (fst r)) = true))
  /\
  (forall req resp w,
     let r := runState (ExplicitSalt.Delete L req resp) w in
     resp_State (fst r) = resp_State resp /\ snd r = w
     /\ (Raw (delete_State req) <> None ->
         resp_Diagnostics (fst r) = resp_Diagnostics resp)
     /\ (Raw (delete_State req) = None ->
         HasError (resp_Diagnostics (fst r)) = true)).
Proof.
  split; intros req resp w r; subst r.
  - unfold GeneratedSalt.Delete, Get.
    destruct (Raw (delete_State req)) as [m|]; cbn -[HasError Append].
    + split; [reflexivity|]. split; [reflexivity|].
      split; [intros _; reflexivity | intros H; discriminate].
    + split; [reflexivity|]. split; [reflexivity|].
      split; [intros H; contradiction | intros _; apply HasError_null_object].
  - unfold ExplicitSalt.Delete, Get.
    destruct (Raw (delete_State req)) as [m|]; cbn -[HasError Append].
    + split; [reflexivity|]. split; [reflexivity|].
      split; [intros _; reflexivity | intros H; discriminate].
    + split; [reflexivity|]. split; [reflexivity|].
      split; [intros H; contradiction | intros _; apply HasError_null_object].
Qed.

Lemma delete_reads_only_witness :
  let r := runState (GeneratedSalt.Delete RefLib.lib
                       (mkDeleteRequest (mkData (Some Examples.gs_prior)))
                       (GeneratedSalt.fresh_response (mkData (Some Examples.gs_prior))))
                    Examples.w0 in
  resp_Diagnostics (fst r) = []
  /\ HasError (resp_Diagnostics (fst (runState
        (ExplicitSalt.Delete RefLib.lib (mkDeleteRequest (mkData None))
           (ExplicitSalt.fresh_response (mkData None))) Examples.w0))) = true.
Proof.
  split.
  - apply (proj1 (delete_reads_only RefLib.lib)
             (mkDeleteRequest (mkData (Some Examples.gs_prior)))
             (GeneratedSalt.fresh_response (mkData (Some Examples.gs_prior)))
             Examples.w0). cbn. discriminate.
  - apply (proj2 (delete_reads_only RefLib.lib)
             (mkDeleteRequest (mkData None))
             (ExplicitSalt.fresh_response (mkData None)) Examples.w0). reflexivity.
Defined.

(** *** Provider wiring *)

(** X13. The provider registers one resource, named after the provider
    type name as [password_argon2] for every version.  Configure of the
    resource accepts what Configure of the provider hands out: it never
    adds a diagnostic, and holds the default client exactly when the
    provider configuration could be read.  Only provider data of another
    type is rejected, with an error and the resource unchanged; the
    edition without a client ignores the provider data altogether. *)
Theorem provider_wiring :
  (forall v resp,
     Wiring.Metadata (Wiring.pm_TypeName
                        (Wiring.provider_Metadata (Wiring.New v tt) resp))
     = "password_argon2"
     /\ List.length (Wiring.Resources (Wiring.New v tt)) = 1)
  /\
  (forall p config,
     snd (Wiring.configure_all p config)
     = [ (Wiring.mkArgon2Resource
            (match Raw config with
             | Some _ => Some Wiring.http_DefaultClient
             | None => None
             end), []) ]
     /\ HasError (Wiring.pc_Diagnostics (fst (Wiring.configure_all p config)))
        = match Raw config with Some _ => false | None => true end)
  /\
  (forall r type_name ds,
     fst (Wiring.es_Configure r (Wiring.AnyOther type_name) ds) = r
     /\ HasError (snd (Wiring.es_Configure r (Wiring.AnyOther type_name) ds)) = true)
  /\
  (forall r ds, Wiring.es_Configure r Wiring.AnyNil ds = (r, ds))
  /\
  (forall pd ds, Wiring.gs_Configure pd ds = ds).
Proof.
  split; [|split; [|split; [|split]]].
  - intros v resp. split; reflexivity.
  - intros p [[u|]]; split; reflexivity.
  - intros r type_name ds. split; [reflexivity|].
    cbn -[HasError AddError]. apply HasError_AddError.
  - reflexivity.
  - intros [| |]; reflexivity.
Qed.

(** *** Import *)

Lemma es_digest_Some_New L data w d :
  Props.es_digest L data w = Some d ->
  exists hs, Argon2.New L [Argon2.WithProfileRFC9106Recommended] = inl hs.
Proof.
  unfold Props.es_digest, ExplicitSalt.generatePassword.
  destruct (Argon2.New L _) as [hs|e]; [|discriminate]. intros _. exists hs. reflexivity.
Qed.

(** Update of the explicit-salt edition makes a hash call exactly when
    the secrets differ and the hasher could be built. *)
Lemma es_Update_hash_calls_any L prior desired resp w :
  HasError (resp_Diagnostics resp) = false ->
  Effects.hash_calls
    (snd (runState (ExplicitSalt.Update L (Props.es_update desired prior) resp) w))
  = Effects.hash_calls w
    + (if StringEqual (ExplicitSalt.Password prior) (ExplicitSalt.Password desired)
       then 0
       else match Argon2.New L [Argon2.WithProfileRFC9106Recommended] with
            | inl _ => 1
            | inr _ => 0
            end).
Proof.
  intros He. unfold ExplicitSalt.Update. enter_handler He.
  destruct (StringEqual _ _); cbn; [lia|].
  unfold ExplicitSalt.generatePassword.
  destruct (Argon2.New L _) as [hs|e]; cbn; [|lia].
  destruct (Argon2.Hash L hs _ _) as [[d|e] en]; cbn; lia.
Qed.

Lemma ImportState_id_nonempty (id : string) :
  id <> EmptyString -> String.eqb id EmptyString = false.
Proof. intros H. apply String.eqb_neq. exact H. Qed.

(** X14. Import with a non-empty identifier, then the refresh and the
    first update the framework makes.  The imported state carries the
    supplied identifier and no secret, so an update with a known secret
    always goes to the hashing helper: one hash call in the
    engine-generated-salt edition, one in the explicit-salt edition
    unless the hasher cannot be built.  When a digest comes back the
    record written keeps the imported identifier (not ["argon2-id"]) and
    carries the new hash; otherwise the imported state stays. *)
Theorem import_then_update_rehashes (L : Argon2.Lib) :
  (forall id proposed s w,
     id <> EmptyString ->
     GeneratedSalt.Password proposed = StringValue s ->
     let imported := Wiring.gs_ImportState id (GeneratedSalt.fresh_response (mkData None)) in
     let r := runState (GeneratedSalt.run L
                          [GeneratedSalt.EvRead; GeneratedSalt.EvUpdate proposed]
                          (resp_State imported)) w in
     Effects.hash_calls (snd r) = S (Effects.hash_calls w)
     /\ Raw (fst r)
        = Some match Props.gs_digest L proposed w with
               | Some d =>
                   GeneratedSalt.with_Hash
                     (GeneratedSalt.with_Id proposed (StringValue id))
                     (StringValue (Argon2.DigestString L d))
               | None => GeneratedSalt.with_Id GeneratedSalt.zero_Model (StringValue id)
               end)
  /\
  (forall id proposed s w,
     id <> EmptyString ->
     ExplicitSalt.Password proposed = StringValue s ->
     let imported := Wiring.es_ImportState id (ExplicitSalt.fresh_response (mkData None)) in
     let r := runState (ExplicitSalt.run L
                          [ExplicitSalt.EvRead; ExplicitSalt.EvUpdate proposed]
                          (resp_State imported)) w in
     Effects.hash_calls (snd r)
     = Effects.hash_calls w
       + match Argon2.New L [Argon2.WithProfileRFC9106Recommended] with
         | inl _ => 1
         | inr _ => 0
         end
     /\ Raw (fst r)
        = Some match Props.es_digest L proposed w with
               | Some d =>
                   ExplicitSalt.with_Hash
                     (ExplicitSalt.with_Id proposed (StringValue id))
                     (StringValue (Argon2.DigestString L d))
               | None => ExplicitSalt.with_Id ExplicitSalt.zero_Model (StringValue id)
               end).
Proof.
  split; intros id proposed s w Hid Hs imported r; subst imported r.
  - unfold Wiring.gs_ImportState. rewrite (ImportState_id_nonempty id Hid).
    cbn [GeneratedSalt.fresh_response Raw resp_State resp_Diagnostics].
    set (m := GeneratedSalt.with_Id GeneratedSalt.zero_Model (StringValue id)).
    set (desired := GeneratedSalt.with_Id proposed (StringValue id)).
    assert (Hneq : StringEqual (GeneratedSalt.Password m) (GeneratedSalt.Password desired)
                   = false) by (cbn; rewrite Hs; reflexivity).
    assert (Hrun : runState (GeneratedSalt.run L
                     [GeneratedSalt.EvRead; GeneratedSalt.EvUpdate proposed]
                     (mkData (Some m))) w
                   = runState (GeneratedSalt.dispatch L (mkData (Some m))
                                 (GeneratedSalt.EvUpdate proposed)) w).
    { cbn [GeneratedSalt.run runState bind Monad_state ret].
      destruct (runState (GeneratedSalt.dispatch L (mkData (Some m))
                            (GeneratedSalt.EvUpdate proposed)) w) as [st w']
        eqn:Hdisp.
      cbn. cbn in Hdisp. rewrite Hdisp. reflexivity. }
    rewrite Hrun, (gs_dispatch_update L (mkData (Some m)) proposed w). cbv zeta.
    change (mkUpdateRequest (mkData (Some (GeneratedSalt.planned (mkData (Some m)) proposed)))
              (mkData (Some m))) with (Props.gs_update desired m).
    cbn [fst snd]. split.
    + rewrite (gs_Update_hash_calls L m desired
                 (GeneratedSalt.fresh_response (mkData (Some m))) w eq_refl), Hneq. lia.
    + rewrite (gs_Update_changed L m desired
                 (GeneratedSalt.fresh_response (mkData (Some m))) w eq_refl Hneq).
      change (Props.gs_digest L desired w) with (Props.gs_digest L proposed w).
      destruct (Props.gs_digest L proposed w); reflexivity.
  - unfold Wiring.es_ImportState. rewrite (ImportState_id_nonempty id Hid).
    cbn [ExplicitSalt.fresh_response Raw resp_State resp_Diagnostics].
    set (m := ExplicitSalt.with_Id ExplicitSalt.zero_Model (StringValue id)).
    set (desired := ExplicitSalt.with_Id proposed (StringValue id)).
    assert (Hneq : StringEqual (ExplicitSalt.Password m) (ExplicitSalt.Password desired)
                   = false) by (cbn; rewrite Hs; reflexivity).
    assert (Hrun : runState (ExplicitSalt.run L
                     [ExplicitSalt.EvRead; ExplicitSalt.EvUpdate proposed]
                     (mkData (Some m))) w
                   = runState (ExplicitSalt.dispatch L (mkData (Some m))
                                 (ExplicitSalt.EvUpdate proposed)) w).
    { cbn [ExplicitSalt.run runState bind Monad_state ret].
      destruct (runState (ExplicitSalt.dispatch L (mkData (Some m))
                            (ExplicitSalt.EvUpdate proposed)) w) as [st w']
        eqn:Hdisp.
      cbn. cbn in Hdisp. rewrite Hdisp. reflexivity. }
    rewrite Hrun, (es_dispatch_update L (mkData (Some m)) proposed w). cbv zeta.
    change (mkUpdateRequest (mkData (Some (ExplicitSalt.planned (mkData (Some m)) proposed)))
              (mkData (Some m))) with (Props.es_update desired m).
    cbn [fst snd]. split.
    + rewrite (es_Update_hash_calls_any L m desired
                 (ExplicitSalt.fresh_response (mkData (Some m))) w eq_refl), Hneq.
      reflexivity.
    + rewrite (es_Update_changed L m desired
                 (ExplicitSalt.fresh_response (mkData (Some m))) w eq_refl Hneq).
      change (Props.es_digest L desired w) with (Props.es_digest L proposed w).
      destruct (Props.es_digest L proposed w); reflexivity.
Qed.

Lemma import_then_update_rehashes_witness :
  (let imported := Wiring.gs_ImportState "imported-id"
                     (GeneratedSalt.fresh_response (mkData None)) in
   let r := runState (GeneratedSalt.run RefLib.lib
                        [GeneratedSalt.EvRead; GeneratedSalt.EvUpdate Examples.gs_plan]
                        (resp_State imported)) Examples.w0 in
   Effects.hash_calls (snd r) = 1
   /\ Raw (fst r)
      = Some (GeneratedSalt.with_Hash
                (GeneratedSalt.with_Id Examples.gs_plan (StringValue "imported-id"))
                (GeneratedSalt.Hash Scenarios.gs_created)))
  /\
  (let imported := Wiring.es_ImportState "imported-id"
                     (ExplicitSalt.fresh_response (mkData None)) in
   let r := runState (ExplicitSalt.run RefLib.lib
                        [ExplicitSalt.EvRead; ExplicitSalt.EvUpdate Examples.es_plan]
                        (resp_State imported)) Examples.w_dry in
   Effects.hash_calls (snd r) = 1
   /\ Raw (fst r)
      = Some (ExplicitSalt.with_Id ExplicitSalt.zero_Model (StringValue "imported-id"))).
Proof.
  split.
  - apply (proj1 (import_then_update_rehashes RefLib.lib)
             "imported-id" Examples.gs_plan "example-password" Examples.w0);
      [discriminate | reflexivity].
  - apply (proj2 (import_then_update_rehashes RefLib.lib)
             "imported-id" Examples.es_plan "example-password" Examples.w_dry);
      [discriminate | reflexivity].
Defined.

(** An import with an empty identifier sets nothing: the state of the
    response stays as the framework created it. *)
Lemma ImportState_empty_id :
  (forall resp, Wiring.gs_ImportState EmptyString resp = resp)
  /\ (forall resp, Wiring.es_ImportState EmptyString resp = resp).
Proof. split; reflexivity. Qed.

(** *** When Update hashes *)

(** X15. In the engine-generated-salt edition, Update on readable plan
    and state invokes the hasher exactly when the planned secret differs
    from the prior one, and then exactly once, whether or not the
    invocation succeeds; a change of the cost attributes alone never
    triggers a hash. *)
Theorem update_hashes_iff_secret_differs (L : Argon2.Lib) prior desired resp w :
  HasError (resp_Diagnostics resp) = false ->
  let r := runState (GeneratedSalt.Update L (Props.gs_update desired prior) resp) w in
  (GeneratedSalt.Password desired = GeneratedSalt.Password prior ->
   Effects.hash_calls (snd r) = Effects.hash_calls w)
  /\ (GeneratedSalt.Password desired <> GeneratedSalt.Password prior ->
      Effects.hash_calls (snd r) = S (Effects.hash_calls w)).
Proof.
  intros He r. subst r.
  rewrite (gs_Update_hash_calls L prior desired resp w He). split; intros Hp.
  - rewrite Hp, StringEqual_refl. lia.
  - rewrite StringEqual_neq by congruence. lia.
Qed.

Lemma update_hashes_iff_secret_differs_witness :
  let r := runState (GeneratedSalt.Update RefLib.lib
                       (Props.gs_update Examples.gs_desired_new Examples.gs_prior)
                       (GeneratedSalt.fresh_response (mkData (Some Examples.gs_prior))))
                    Examples.w_dry in
  (GeneratedSalt.Password Examples.gs_desired_new = GeneratedSalt.Password Examples.gs_prior ->
   Effects.hash_calls (snd r) = 0)
  /\ (GeneratedSalt.Password Examples.gs_desired_new
      <> GeneratedSalt.Password Examples.gs_prior ->
      Effects.hash_calls (snd r) = 1).
Proof.
  exact (update_hashes_iff_secret_differs RefLib.lib Examples.gs_prior
           Examples.gs_desired_new
           (GeneratedSalt.fresh_response (mkData (Some Examples.gs_prior)))
           Examples.w_dry eq_refl).
Defined.
